(** * AKS best-practice assessment engine

    A shallow embedding of [backend/app/services/assessment_engine.py]
    (class [AssessmentEngine]) together with the loader functions of
    [backend/app/services/recommendations.py] it calls, and the properties
    of the engine stated in the specification.

    Conventions of the embedding.
    - Python values that flow through the engine (the JSON rule catalog,
      the cluster's [as_dict()] tree, query records) are the inductive
      type [value].  JSON numbers are modelled as integers.
    - Python strings are Rocq strings.  A character below 128 is the
      ASCII character; text outside ASCII is carried as its UTF-8 bytes.
      [PyStr.lower], [PyStr.strip] and [PyStr.parse_int] are [str.lower],
      [str.strip] and [int] on ASCII strings ([PyStr.ascii_only]); bytes
      of 128 and above are left as they are, which is what Python does
      with a character that has no lowercase mapping and is not
      whitespace.  A property that compares letter case is stated for
      ASCII strings.
    - A Python callable that may raise returns [res A]: [Ret a] for a
      normal return and [Raise e] for a raised exception.
    - The interpreter's attribute table ([getattr] on non-dict values) and
      the external collaborators (Azure client, files on disk, clock and
      uuid) are variables of the sections that use them. *)

From Stdlib Require Import ZArith List String Ascii Bool Lia Permutation.
From Stdlib Require Import Floats Uint63 DecimalString.
Import ListNotations.

Set Warnings "-register-all".

Open Scope string_scope.
Open Scope Z_scope.

(** ** Exceptions and results *)

(** An exception: its class name and [str(e)].  The messages of the
    exceptions the interpreter raises are abbreviated; the engine only
    copies them into text fields. *)
Inductive exc : Type :=
| Exc (cls : string) (msg : string).

Definition exc_str (e : exc) : string :=
  match e with Exc _ msg => msg end.

Inductive res (A : Type) : Type :=
| Ret (a : A)
| Raise (e : exc).

Arguments Ret {A} a.
Arguments Raise {A} e.

Definition bind {A B : Type} (m : res A) (k : A -> res B) : res B :=
  match m with
  | Ret a => k a
  | Raise e => Raise e
  end.

Notation "x <- m ;; k" := (bind m (fun x => k))
  (at level 61, m at next level, right associativity).

Definition TypeError (msg : string) : exc := Exc "TypeError" msg.
Definition ValueError (msg : string) : exc := Exc "ValueError" msg.
Definition IndexError (msg : string) : exc := Exc "IndexError" msg.
Definition AttributeError (msg : string) : exc := Exc "AttributeError" msg.

(** ** Python string operations *)

Module PyStr.

Definition code (c : ascii) : nat := nat_of_ascii c.

Definition is_upper (c : ascii) : bool :=
  (Nat.leb 65 (code c) && Nat.leb (code c) 90)%bool.

Definition is_lower (c : ascii) : bool :=
  (Nat.leb 97 (code c) && Nat.leb (code c) 122)%bool.

Definition lower_char (c : ascii) : ascii :=
  if is_upper c then ascii_of_nat (code c + 32) else c.

Definition upper_char (c : ascii) : ascii :=
  if is_lower c then ascii_of_nat (code c - 32) else c.

(** The strings on which the operations below are Python's: every
    character is in the ASCII range. *)
Fixpoint ascii_only (s : string) : bool :=
  match s with
  | EmptyString => true
  | String c s' => (Nat.ltb (code c) 128 && ascii_only s')%bool
  end.

(** [s.lower()]: the letters A to Z are folded, every other character
    is kept. *)
Fixpoint lower (s : string) : string :=
  match s with
  | EmptyString => EmptyString
  | String c s' => String (lower_char c) (lower s')
  end.

(** Whitespace as [str.strip()] sees it in the ASCII range:
    TAB, LF, VT, FF, CR, FS, GS, RS, US and SPACE. *)
Definition is_space (c : ascii) : bool :=
  let n := code c in
  ((Nat.leb 9 n && Nat.leb n 13) || (Nat.leb 28 n && Nat.leb n 32))%bool.

Fixpoint lstrip (s : string) : string :=
  match s with
  | EmptyString => EmptyString
  | String c s' => if is_space c then lstrip s' else s
  end.

Definition is_empty (s : string) : bool :=
  match s with EmptyString => true | _ => false end.

Fixpoint rstrip (s : string) : string :=
  match s with
  | EmptyString => EmptyString
  | String c s' =>
      let r := rstrip s' in
      if (is_space c && is_empty r)%bool then EmptyString else String c r
  end.

(** [s.strip()] *)
Definition strip (s : string) : string := rstrip (lstrip s).

(** [s.split(sep)] for a one-character separator. *)
Fixpoint split (sep : ascii) (s : string) : list string :=
  match s with
  | EmptyString => [EmptyString]
  | String c s' =>
      if Ascii.eqb c sep then EmptyString :: split sep s'
      else match split sep s' with
           | h :: t => String c h :: t
           | [] => [String c EmptyString]
           end
  end.

(** [sep.join(parts)] *)
Fixpoint join (sep : string) (parts : list string) : string :=
  match parts with
  | [] => EmptyString
  | [p] => p
  | p :: rest => p ++ sep ++ join sep rest
  end.

(** [c in s] for a one-character string [c]. *)
Fixpoint contains_char (c : ascii) (s : string) : bool :=
  match s with
  | EmptyString => false
  | String c' s' => (Ascii.eqb c' c || contains_char c s')%bool
  end.

(** [s.replace(c, by)] for a one-character pattern [c]. *)
Fixpoint replace_char (c : ascii) (by_ : string) (s : string) : string :=
  match s with
  | EmptyString => EmptyString
  | String c' s' =>
      if Ascii.eqb c' c then by_ ++ replace_char c by_ s'
      else String c' (replace_char c by_ s')
  end.

(** [s.startswith(c)] for a one-character string [c]. *)
Definition startswith (c : ascii) (s : string) : bool :=
  match s with
  | String c' _ => Ascii.eqb c' c
  | EmptyString => false
  end.

(** [s.endswith(c)] for a one-character string [c]. *)
Fixpoint endswith (c : ascii) (s : string) : bool :=
  match s with
  | EmptyString => false
  | String c' EmptyString => Ascii.eqb c' c
  | String _ s' => endswith c s'
  end.

(** [s[:-1]] *)
Fixpoint drop_last (s : string) : string :=
  match s with
  | EmptyString => EmptyString
  | String _ EmptyString => EmptyString
  | String c s' => String c (drop_last s')
  end.

(** [s[1:-1]] *)
Definition slice_1_m1 (s : string) : string :=
  match s with
  | EmptyString => EmptyString
  | String _ s' => drop_last s'
  end.

Fixpoint prefix (p s : string) : bool :=
  match p, s with
  | EmptyString, _ => true
  | String a p', String b s' => (Ascii.eqb a b && prefix p' s')%bool
  | String _ _, EmptyString => false
  end.

(** [sub in s] for strings. *)
Fixpoint contains (sub s : string) : bool :=
  match s with
  | EmptyString => is_empty sub
  | String _ s' => (prefix sub s || contains sub s')%bool
  end.

Definition is_digit (c : ascii) : bool :=
  (Nat.leb 48 (code c) && Nat.leb (code c) 57)%bool.

Definition digit_val (c : ascii) : Z := Z.of_nat (code c - 48).

(** The digit part of an integer literal: decimal digits, with single
    underscores allowed between digits. *)
Fixpoint int_digits (s : string) (acc : Z) (after_digit : bool) : option Z :=
  match s with
  | EmptyString => if after_digit then Some acc else None
  | String c s' =>
      if is_digit c then int_digits s' (10 * acc + digit_val c) true
      else if Ascii.eqb c "_" then
             (if after_digit then int_digits s' acc false else None)
      else None
  end.

(** Whitespace as [int()] skips it around a literal: TAB, LF, VT, FF,
    CR and SPACE.  The separators FS, GS, RS and US, which [str.strip()]
    removes, are not skipped: [int] raises on them. *)
Definition is_int_space (c : ascii) : bool :=
  let n := code c in
  ((Nat.leb 9 n && Nat.leb n 13) || Nat.eqb n 32)%bool.

Fixpoint int_lstrip (s : string) : string :=
  match s with
  | EmptyString => EmptyString
  | String c s' => if is_int_space c then int_lstrip s' else s
  end.

Fixpoint int_rstrip (s : string) : string :=
  match s with
  | EmptyString => EmptyString
  | String c s' =>
      let r := int_rstrip s' in
      if (is_int_space c && is_empty r)%bool then EmptyString else String c r
  end.

(** [int(s)]: surrounding whitespace, an optional sign, digits. [None]
    stands for the [ValueError] Python raises. *)
Definition parse_int (s : string) : option Z :=
  match int_rstrip (int_lstrip s) with
  | String "-" d => option_map Z.opp (int_digits d 0 false)
  | String "+" d => int_digits d 0 false
  | d => int_digits d 0 false
  end.

Definition hex_digit (n : nat) : ascii :=
  if Nat.ltb n 10 then ascii_of_nat (48 + n) else ascii_of_nat (87 + n).

(** One character of [repr(s)] with quote character [q]. *)
Definition repr_char (q : ascii) (c : ascii) : string :=
  let n := code c in
  if Ascii.eqb c "\" then "\\"
  else if Ascii.eqb c q then String "\" (String q EmptyString)
  else if Nat.eqb n 10 then "\n"
  else if Nat.eqb n 13 then "\r"
  else if Nat.eqb n 9 then "\t"
  else if (Nat.ltb n 32 || Nat.eqb n 127)%bool then
    String "\" (String "x" (String (hex_digit (n / 16))
                                   (String (hex_digit (n mod 16)) EmptyString)))
  else String c EmptyString.

Fixpoint repr_body (q : ascii) (s : string) : string :=
  match s with
  | EmptyString => EmptyString
  | String c s' => repr_char q c ++ repr_body q s'
  end.

(** The double-quote character. *)
Definition dquote : ascii := ascii_of_nat 34.

(** [repr(s)]: single quotes unless the string has a single quote and no
    double quote. *)
Definition repr (s : string) : string :=
  let q : ascii :=
    if (contains_char "'" s && negb (contains_char dquote s))%bool
    then dquote else "'"%char in
  String q (repr_body q s ++ String q EmptyString).

(** [str(n)] for an integer. *)
Definition of_Z (n : Z) : string := NilZero.string_of_int (Z.to_int n).

End PyStr.

(** ** Python values *)

(** The values the engine handles.  [VObject r] is any other interpreter
    object an attribute lookup may hand back (a bound method, a type),
    known only by its rendering [r]; it is not iterable. *)
Inductive value : Type :=
| VNone
| VBool (b : bool)
| VInt (n : Z)
| VStr (s : string)
| VList (l : list value)
| VDict (d : list (string * value))
| VObject (r : string).

(** A Python [dict] with string keys, in insertion order. *)
Definition dict : Type := list (string * value).

Fixpoint lookup (k : string) (d : dict) : option value :=
  match d with
  | [] => None
  | (k', v) :: d' => if String.eqb k' k then Some v else lookup k d'
  end.

(** [d.get(k, default)] *)
Definition get_default (d : dict) (k : string) (default : value) : value :=
  match lookup k d with
  | Some v => v
  | None => default
  end.

(** [d.get(k)] *)
Definition get (d : dict) (k : string) : value := get_default d k VNone.

(** [k in d] for a string [k]. *)
Definition has_key (k : string) (d : dict) : bool :=
  match lookup k d with Some _ => true | None => false end.

(** Truth value of an object ([not x] is its negation). *)
Definition truthy (v : value) : bool :=
  match v with
  | VNone => false
  | VBool b => b
  | VInt n => negb (n =? 0)
  | VStr s => negb (PyStr.is_empty s)
  | VList l => match l with [] => false | _ => true end
  | VDict d => match d with [] => false | _ => true end
  | VObject _ => true
  end.

(** [isinstance(v, (list, dict))] fails to hash. *)
Definition hashable (v : value) : bool :=
  match v with
  | VList _ | VDict _ => false
  | _ => true
  end.

Definition Z_of_bool (b : bool) : Z := if b then 1 else 0.

(** [a == b].  [bool] is a subclass of [int], so [True == 1]; dicts
    compare as mappings, whatever the insertion order. *)
Fixpoint py_eq (a b : value) {struct a} : bool :=
  match a, b with
  | VNone, VNone => true
  | VBool x, VBool y => Bool.eqb x y
  | VBool x, VInt n => Z_of_bool x =? n
  | VInt n, VBool y => n =? Z_of_bool y
  | VInt n, VInt m => n =? m
  | VStr s, VStr t => String.eqb s t
  | VList la, VList lb =>
      (fix eq_list (xs ys : list value) {struct xs} : bool :=
         match xs, ys with
         | [], [] => true
         | x :: xs', y :: ys' => (py_eq x y && eq_list xs' ys')%bool
         | _, _ => false
         end) la lb
  | VDict da, VDict db =>
      (Nat.eqb (List.length da) (List.length db) &&
       (fix eq_items (xs : list (string * value)) {struct xs} : bool :=
          match xs with
          | [] => true
          | (k, v) :: xs' =>
              (match lookup k db with
               | Some w => py_eq v w
               | None => false
               end && eq_items xs')%bool
          end) da)%bool
  | VObject r, VObject r' => String.eqb r r'
  | _, _ => false
  end.

(** [repr(v)] and [str(v)]. *)
Fixpoint py_repr (v : value) : string :=
  match v with
  | VNone => "None"
  | VBool true => "True"
  | VBool false => "False"
  | VInt n => PyStr.of_Z n
  | VStr s => PyStr.repr s
  | VList l => "[" ++ PyStr.join ", " (map py_repr l) ++ "]"
  | VDict d =>
      "{" ++ PyStr.join ", "
               (map (fun kv : string * value =>
                       PyStr.repr (fst kv) ++ ": " ++ py_repr (snd kv)) d)
          ++ "}"
  | VObject r => r
  end.

Definition py_str (v : value) : string :=
  match v with
  | VStr s => s
  | _ => py_repr v
  end.

(** [item in container].  A list is searched with [==]; a dict is asked
    for a key, which hashes the item; a string accepts only a string;
    anything else is not iterable. *)
Definition py_in (item container : value) : res bool :=
  match container with
  | VList l => Ret (existsb (py_eq item) l)
  | VDict d =>
      if hashable item then
        Ret (match item with VStr k => has_key k d | _ => false end)
      else Raise (TypeError "unhashable type")
  | VStr s =>
      match item with
      | VStr sub => Ret (PyStr.contains sub s)
      | _ => Raise (TypeError "'in <string>' requires string as left operand")
      end
  | _ => Raise (TypeError "argument is not iterable")
  end.

(** [all(item in container for item in items)]: stops at the first
    [False], and at the first exception. *)
Fixpoint all_in (items : list value) (container : value) : res bool :=
  match items with
  | [] => Ret true
  | item :: rest =>
      b <- py_in item container ;;
      if b then all_in rest container else Ret false
  end.

(** [l[idx]]: negative indices count from the end. *)
Definition list_index (l : list value) (idx : Z) : res value :=
  let n := Z.of_nat (List.length l) in
  let i := if idx <? 0 then idx + n else idx in
  if (0 <=? i) && (i <? n) then
    match nth_error l (Z.to_nat i) with
    | Some v => Ret v
    | None => Raise (IndexError "list index out of range")
    end
  else Raise (IndexError "list index out of range").

(** [int(s)] *)
Definition py_int (s : string) : res Z :=
  match PyStr.parse_int s with
  | Some n => Ret n
  | None => Raise (ValueError "invalid literal for int() with base 10")
  end.

Example py_str_empty_dict : py_str (VDict []) = "{}".
Proof. reflexivity. Qed.

Example py_str_nested :
  py_str (VDict [("a", VList [VInt (-3); VStr "x'"; VNone])])
  = String "{" ("'a': [-3, " ++ String PyStr.dquote ("x'" ++ String PyStr.dquote ", None]}")).
Proof. reflexivity. Qed.

Example py_int_examples :
  (py_int " -12 ", py_int "1_000", py_int "", py_int "1__0", py_int "+07")
  = (Ret (-12), Ret 1000, Raise (ValueError "invalid literal for int() with base 10"),
     Raise (ValueError "invalid literal for int() with base 10"), Ret 7).
Proof. reflexivity. Qed.

(** ** Result records *)

(** The dictionary [_evaluate_recommendation] returns. *)
Record rule_result : Type := {
  recommendation_id : value;
  recommendation_name : value;
  category : value;
  status : string;
  actual_value : option string;
  expected_value : option string;
  description : value;
  remediation : value;
  learn_more_link : value
}.

(** One entry of [pillar_scores]. *)
Record pillar_score : Type := {
  score : Z;
  pillar_passed : nat;
  pillar_failed : nat;
  pillar_not_validated : nat;
  pillar_total : nat
}.

(** The dictionary [_calculate_summary] returns. *)
Record summary : Type := {
  overall_score : Z;
  total_checks : nat;
  passed : nat;
  failed : nat;
  not_validated : nat;
  pillar_scores : list (string * pillar_score)
}.

(** The dictionary [run_assessment] returns; [error_message] is [None]
    when the key is not there (a completed run). *)
Record assessment_run : Type := {
  scan_id : string;
  subscription_id : string;
  resource_group : string;
  cluster_name : string;
  cluster_id : value;
  run_status : string;
  started_at : string;
  completed_at : string;
  error_message : option string;
  run_summary : option summary;
  results : list rule_result
}.

(** ** The pillars ([recommendations.PILLARS]; the icon field is left out) *)

Record pillar : Type := {
  pillar_id : string;
  pillar_name : string;
  pillar_description : string;
  pillar_color : string
}.

Definition PILLARS : list pillar := [
  {| pillar_id := "reliability"; pillar_name := "Reliability";
     pillar_description := "Ensure your clusters are resilient and highly available";
     pillar_color := "#22c55e" |};
  {| pillar_id := "security"; pillar_name := "Security";
     pillar_description := "Protect your workloads, data, and access";
     pillar_color := "#ef4444" |};
  {| pillar_id := "cost-optimization"; pillar_name := "Cost Optimization";
     pillar_description := "Optimize resource usage and reduce costs";
     pillar_color := "#f59e0b" |};
  {| pillar_id := "operational-excellence"; pillar_name := "Operational Excellence";
     pillar_description := "Streamline operations, monitoring, and DevOps practices";
     pillar_color := "#3b82f6" |};
  {| pillar_id := "performance-efficiency"; pillar_name := "Performance Efficiency";
     pillar_description := "Maximize performance and scalability";
     pillar_color := "#8b5cf6" |}
].

(** ** Scoring arithmetic *)

(** [round(x)] for a float: to the nearest integer, ties to the even one.
    NaN and the infinities, on which Python raises, are mapped to 0: the
    quotient of a count by a positive count never produces them. *)
Definition round_float (x : float) : Z :=
  match Prim2SF x with
  | S754_finite s m e =>
      let n := Z.pos m in
      let r :=
        if 0 <=? e then n * 2 ^ e
        else
          let d := 2 ^ (- e) in
          let q := n / d in
          match 2 * (n mod d) ?= d with
          | Lt => q
          | Gt => q + 1
          | Eq => if Z.even q then q else q + 1
          end in
      if s then - r else r
  | _ => 0
  end.

(** [float(n)] for a count. *)
Definition float_of_nat (n : nat) : float :=
  PrimFloat.of_uint63 (Uint63.of_Z (Z.of_nat n)).

(** [round((p / t) * 100)] in double precision. *)
Definition round_pct (p t : nat) : Z :=
  round_float (float_of_nat p / float_of_nat t * 100)%float.

Example round_pct_3_4 : round_pct 3 4 = 75.
Proof. vm_compute. reflexivity. Qed.

Example round_pct_1_8 : round_pct 1 8 = 12.
Proof. vm_compute. reflexivity. Qed.

Example round_pct_23_40 : round_pct 23 40 = 57.
Proof. vm_compute. reflexivity. Qed.

(** ** The scorer: [_calculate_summary] *)

(** [sum(1 for r in rs if r["status"] == s)] *)
Definition count_status (s : string) (rs : list rule_result) : nat :=
  List.length (filter (fun r => String.eqb (status r) s) rs).

(** [[r for r in results if r["category"] == pillar_name]] *)
Definition in_pillar (pillar_name : string) (rs : list rule_result)
  : list rule_result :=
  filter (fun r => py_eq (category r) (VStr pillar_name)) rs.

Definition score_pillar (pillar_name : string) (rs : list rule_result)
  : pillar_score :=
  let pillar_results := in_pillar pillar_name rs in
  let total := List.length pillar_results in
  let p := count_status "Passed" pillar_results in
  {| score := if Nat.ltb 0 total then round_pct p total else 0;
     pillar_passed := p;
     pillar_failed := count_status "Failed" pillar_results;
     pillar_not_validated := count_status "CouldNotValidate" pillar_results;
     pillar_total := total |}.

(** The pillar names are pairwise distinct, so the dictionary built by the
    loop over [PILLARS] has one entry per pillar, in that order. *)
Definition calculate_summary (rs : list rule_result) : summary :=
  let total := List.length rs in
  let p := count_status "Passed" rs in
  let f := count_status "Failed" rs in
  let nv := count_status "CouldNotValidate" rs in
  let scores :=
    map (fun pl => (pillar_name pl, score_pillar (pillar_name pl) rs)) PILLARS in
  let validated_total := (p + f)%nat in
  {| overall_score :=
       if Nat.ltb 0 validated_total then round_pct p validated_total else 0;
     total_checks := total;
     passed := p;
     failed := f;
     not_validated := nv;
     pillar_scores := scores |}.

(** ** The path evaluator: [_evaluate_object_key] *)

Section PathEvaluator.

(** [builtin_attr v name] is the attribute [getattr(v, name)] finds on a
    value that is not a dict, or [None] when the interpreter has none. *)
Variable builtin_attr : value -> string -> option value.

(** [getattr(v, name, default)] *)
Definition getattr (v : value) (name : string) (default : value) : value :=
  match builtin_attr v name with
  | Some a => a
  | None => default
  end.

(** [key.startswith("[") and key.endswith("]")] *)
Definition is_bracket (key : string) : bool :=
  (PyStr.startswith "[" key && PyStr.endswith "]" key)%bool.

(** The body of the traversal loop for one non-empty key. *)
Definition step (v : value) (key : string) : res value :=
  match v with
  | VDict d => Ret (get_default d key (VDict []))
  | VList l =>
      if is_bracket key then
        idx <- py_int (PyStr.slice_1_m1 key) ;;
        if idx <? Z.of_nat (List.length l) then list_index l idx
        else Ret (VDict [])
      else Ret (getattr v key (VDict []))
  | _ => Ret (getattr v key (VDict []))
  end.

(** [for key in keys: if not key: continue; ...] *)
Fixpoint walk (keys : list string) (v : value) : res value :=
  match keys with
  | [] => Ret v
  | key :: rest =>
      if PyStr.is_empty key then walk rest v
      else v' <- step v key ;; walk rest v'
  end.

(** [object_key.replace("[", ".[").split(".")] *)
Definition path_keys (object_key : string) : list string :=
  PyStr.split "." (PyStr.replace_char "[" ".[" object_key).

(** [[v.strip().lower() for v in expected_value.split("|")]] *)
Definition allowed_values (expected : string) : list string :=
  map (fun v => PyStr.lower (PyStr.strip v)) (PyStr.split "|" expected).

(** [x in strings] for a string [x] and a list of strings. *)
Definition str_in (x : string) (l : list string) : bool :=
  existsb (String.eqb x) l.

(** The comparison of the resolved value with the expected value. *)
Definition check_expected (v expected : value) : res bool :=
  match expected with
  | VStr e =>
      if PyStr.contains_char "|" e then
        Ret (str_in (PyStr.lower (py_str v)) (allowed_values e))
      else
        Ret (String.eqb (PyStr.lower (py_str v)) (PyStr.lower (py_str expected)))
  | VList items => all_in items v
  | _ =>
      Ret (String.eqb (PyStr.lower (py_str v)) (PyStr.lower (py_str expected)))
  end.

(** The [try] block: traversal, then comparison. *)
Definition resolve_and_check (keys : list string) (cluster_data expected : value)
  : res (string * value) :=
  v <- walk keys cluster_data ;;
  ok <- check_expected v expected ;;
  Ret (if ok then "Passed" else "Failed", v).

(** [_evaluate_object_key]: the pair (status, value); a [None] value is
    [VNone].  [str.replace] on an object key that is not a string raises
    before the [try] block is entered. *)
Definition evaluate_object_key (recommendation : dict) (cluster_data : value)
  : res (string * value) :=
  let object_key := get recommendation "object_key" in
  let expected := get recommendation "object.value" in
  if (negb (truthy object_key)
      || py_eq object_key (VStr "CouldNotValidated"))%bool
  then Ret ("CouldNotValidate", VNone)
  else
    match object_key with
    | VStr path =>
        match resolve_and_check (path_keys path) cluster_data expected with
        | Ret r => Ret r
        | Raise _ => Ret ("CouldNotValidate", VNone)
        end
    | _ => Raise (AttributeError "object has no attribute 'replace'")
    end.

End PathEvaluator.

(** An attribute table with no entry: enough wherever traversal never
    leaves dicts and indexed lists. *)
Definition no_attr (v : value) (name : string) : option value := None.

(** The attributes of integers that are themselves integers. *)
Definition int_attr (v : value) (name : string) : option value :=
  match v with
  | VInt n =>
      if String.eqb name "real" then Some (VInt n)
      else if String.eqb name "numerator" then Some (VInt n)
      else if String.eqb name "imag" then Some (VInt 0)
      else if String.eqb name "denominator" then Some (VInt 1)
      else None
  | _ => None
  end.

Example path_keys_example :
  path_keys "agentPoolProfiles[0].count" = ["agentPoolProfiles"; "[0]"; "count"].
Proof. reflexivity. Qed.

Example path_keys_leading_bracket : path_keys "[1].a" = [""; "[1]"; "a"].
Proof. reflexivity. Qed.

Example evaluate_object_key_attribute :
  evaluate_object_key int_attr
    [("object_key", VStr "pools[0].count.real"); ("object.value", VStr "3")]
    (VDict [("pools", VList [VDict [("count", VInt 3)]])])
  = Ret ("Passed", VInt 3)
  /\ evaluate_object_key int_attr
       [("object_key", VStr "pools[0].count.size"); ("object.value", VStr "3")]
       (VDict [("pools", VList [VDict [("count", VInt 3)]])])
     = Ret ("Failed", VDict []).
Proof. split; reflexivity. Qed.

Example evaluate_object_key_passes :
  evaluate_object_key no_attr
    [("object_key", VStr "sku.tier"); ("object.value", VStr "standard|premium")]
    (VDict [("sku", VDict [("tier", VStr "Standard")])])
  = Ret ("Passed", VStr "Standard").
Proof. reflexivity. Qed.

(** ** The catalog loaders ([recommendations.py]) *)

(** What [load_recommendations] finds at [recommendations.json]: no file,
    a file [json.load] fails on, or the parsed document. *)
Inductive catalog_file : Type :=
| Missing
| Unreadable (e : exc)
| Parsed (document : value).

(** [load_recommendations()] *)
Definition load_recommendations (f : catalog_file) : res value :=
  match f with
  | Missing => Ret (VList [])
  | Unreadable e => Raise e
  | Parsed document => Ret document
  end.

(** [for rec in recommendations]: the items the loop visits. *)
Definition py_iter (v : value) : res (list value) :=
  match v with
  | VList l => Ret l
  | VDict d => Ret (map (fun kv : string * value => VStr (fst kv)) d)
  | VStr s =>
      Ret (map (fun c => VStr (String c EmptyString)) (list_ascii_of_string s))
  | _ => Raise (TypeError "object is not iterable")
  end.

(** ** The orchestrator *)

Section Orchestrator.

Variable builtin_attr : value -> string -> option value.

(** [azure_client.get_cluster(subscription_id, resource_group, cluster_name)] *)
Variable get_cluster : string -> string -> string -> res dict.

(** [azure_client.run_resource_graph_query(query, subscriptions)] *)
Variable run_resource_graph_query : string -> list string -> res (list dict).

(** The state of [recommendations.json]. *)
Variable recommendations_file : catalog_file.

(** The files under [kql/]: [None] when the path does not exist, else
    what reading it gives. *)
Variable kql_file : string -> option (res string).

(** [str(uuid.uuid4())] and the two readings of [datetime.utcnow()]. *)
Variable new_scan_id : string.
Variable started_iso : string.
Variable completed_iso : string.

(** [load_kql_query(query_file)]; joining a path with an object that is
    not a string raises. *)
Definition load_kql_query (query_file : value) : res (option string) :=
  match query_file with
  | VStr name =>
      match kql_file name with
      | None => Ret None
      | Some content => text <- content ;; Ret (Some text)
      end
  | _ => Raise (TypeError "unsupported operand type(s) for /")
  end.

(** [_evaluate_kql_query] *)
Definition evaluate_kql_query (recommendation cluster_info : dict)
    (subscription : string) : res string :=
  let query_file := get recommendation "query_file" in
  query <- load_kql_query query_file ;;
  match query with
  | None => Ret "CouldNotValidate"
  | Some q =>
      if PyStr.is_empty q then Ret "CouldNotValidate"
      else
        match run_resource_graph_query q [subscription] with
        | Ret records =>
            let filtered :=
              filter (fun item => py_eq (get item "name") (get cluster_info "name"))
                     records in
            Ret (if Nat.ltb 0 (List.length filtered) then "Failed" else "Passed")
        | Raise _ => Ret "CouldNotValidate"
        end
  end.

(** The [try] block of [_evaluate_recommendation]. *)
Definition dispatch (recommendation : dict) (cluster_data : value)
    (cluster_info : dict) (subscription : string) : res (string * value) :=
  if has_key "query_file" recommendation then
    st <- evaluate_kql_query recommendation cluster_info subscription ;;
    Ret (st, VNone)
  else if has_key "object_key" recommendation then
    evaluate_object_key builtin_attr recommendation cluster_data
  else Ret ("CouldNotValidate", VNone).

(** [_evaluate_recommendation] *)
Definition evaluate_recommendation (recommendation : dict) (cluster_data : value)
    (cluster_info : dict) (subscription : string) : rule_result :=
  let rec_id :=
    get_default recommendation "id"
      (get_default recommendation "recommendation_name" (VStr "unknown")) in
  let rec_name := get_default recommendation "recommendation_name" (VStr "Unknown") in
  let cat := get_default recommendation "category" (VStr "Unknown") in
  let expected := get recommendation "object.value" in
  let outcome :=
    match dispatch recommendation cluster_data cluster_info subscription with
    | Ret r => r
    | Raise e => ("CouldNotValidate", VStr ("Error: " ++ exc_str e))
    end in
  {| recommendation_id := rec_id;
     recommendation_name := rec_name;
     category := cat;
     status := fst outcome;
     actual_value :=
       match snd outcome with
       | VNone => None
       | actual => Some (py_str actual)
       end;
     expected_value := if truthy expected then Some (py_str expected) else None;
     description := get recommendation "description";
     remediation := get recommendation "remediation";
     learn_more_link := get recommendation "learn_more_link" |}.

(** [x in seen] for the set of names seen so far. *)
Definition in_seen (x : value) (seen : list value) : bool :=
  existsb (py_eq x) seen.

(** The loop over the catalog.  [rec.get] needs a dict, and the test
    [rec_name in seen] hashes the name. *)
Fixpoint run_checks (recs : list value) (seen : list value)
    (acc : list rule_result) (cluster_data : value) (cluster_info : dict)
    (subscription : string) : res (list rule_result) :=
  match recs with
  | [] => Ret acc
  | VDict rec :: rest =>
      let rec_name := get rec "recommendation_name" in
      if hashable rec_name then
        if in_seen rec_name seen then
          run_checks rest seen acc cluster_data cluster_info subscription
        else
          let result :=
            evaluate_recommendation rec cluster_data cluster_info subscription in
          run_checks rest (rec_name :: seen) (acc ++ [result])%list
                     cluster_data cluster_info subscription
      else Raise (TypeError "unhashable type")
  | _ :: _ => Raise (AttributeError "object has no attribute 'get'")
  end.

(** The [try] block of [run_assessment]. *)
Definition assess (subscription group cluster : string)
  : res (dict * list rule_result) :=
  cluster_info <- get_cluster subscription group cluster ;;
  let cluster_data := get_default cluster_info "_raw" (VDict []) in
  recommendations <- load_recommendations recommendations_file ;;
  recs <- py_iter recommendations ;;
  rs <- run_checks recs [] [] cluster_data cluster_info subscription ;;
  Ret (cluster_info, rs).

(** [run_assessment] *)
Definition run_assessment (subscription group cluster : string)
  : assessment_run :=
  match assess subscription group cluster with
  | Ret (cluster_info, rs) =>
      {| scan_id := new_scan_id;
         subscription_id := subscription;
         resource_group := group;
         cluster_name := cluster;
         cluster_id := get cluster_info "id";
         run_status := "completed";
         started_at := started_iso;
         completed_at := completed_iso;
         error_message := None;
         run_summary := Some (calculate_summary rs);
         results := rs |}
  | Raise e =>
      {| scan_id := new_scan_id;
         subscription_id := subscription;
         resource_group := group;
         cluster_name := cluster;
         cluster_id := VNone;
         run_status := "failed";
         started_at := started_iso;
         completed_at := completed_iso;
         error_message := Some (exc_str e);
         run_summary := None;
         results := [] |}
  end.

End Orchestrator.

(** * Properties *)

(** ** Scorer *)

(** The three status strings the engine writes. *)
Definition valid_status (s : string) : Prop :=
  s = "Passed" \/ s = "Failed" \/ s = "CouldNotValidate".

(** The entry of a pillar in the summary's [pillar_scores] dictionary. *)
Fixpoint entry (name : string) (scores : list (string * pillar_score))
  : option pillar_score :=
  match scores with
  | [] => None
  | (k, ps) :: rest => if String.eqb k name then Some ps else entry name rest
  end.


Lemma count_status_cons (s : string) (r : rule_result) (rs : list rule_result) :
  count_status s (r :: rs)
  = ((if String.eqb (status r) s then 1 else 0) + count_status s rs)%nat.
Proof.
  unfold count_status. simpl. destruct (String.eqb (status r) s); reflexivity.
Qed.

Lemma count_status_nil (s : string) : count_status s [] = 0%nat.
Proof. reflexivity. Qed.

Lemma count_status_le (s : string) (rs : list rule_result) :
  (count_status s rs <= List.length rs)%nat.
Proof.
  induction rs as [|r rs IH]; [apply Nat.le_refl|].
  rewrite count_status_cons. simpl.
  destruct (String.eqb (status r) s); lia.
Qed.

(** Results with a valid status split into the three counts. *)
Lemma count_partition (rs : list rule_result) :
  Forall (fun r => valid_status (status r)) rs ->
  List.length rs
  = (count_status "Passed" rs + count_status "Failed" rs
     + count_status "CouldNotValidate" rs)%nat.
Proof.
  induction 1 as [|r rs Hr _ IH]; [reflexivity|].
  rewrite !count_status_cons. simpl List.length. rewrite IH.
  destruct Hr as [E|[E|E]]; rewrite E; simpl; lia.
Qed.

Lemma in_pillar_valid (name : string) (rs : list rule_result) :
  Forall (fun r => valid_status (status r)) rs ->
  Forall (fun r => valid_status (status r)) (in_pillar name rs).
Proof.
  unfold in_pillar. rewrite !Forall_forall. intros H r Hin.
  apply filter_In in Hin. apply H, Hin.
Qed.


(** Every pillar has its entry, and the entry is its [score_pillar]. *)
Lemma entry_of_pillar (name : string) (rs : list rule_result) :
  In name (map pillar_name PILLARS) ->
  entry name (pillar_scores (calculate_summary rs)) = Some (score_pillar name rs).
Proof.
  simpl. intros [H|[H|[H|[H|[H|[]]]]]]; subst name; reflexivity.
Qed.

(** A result list with [p] passed, [f] failed and [n] undetermined results
    in the given category. *)
Definition mk_result (cat st : string) : rule_result :=
  {| recommendation_id := VStr "r"; recommendation_name := VStr "r";
     category := VStr cat; status := st;
     actual_value := None; expected_value := None;
     description := VNone; remediation := VNone; learn_more_link := VNone |}.

Definition sample_results (cat : string) (p f n : nat) : list rule_result :=
  (repeat (mk_result cat "Passed") p ++ repeat (mk_result cat "Failed") f
   ++ repeat (mk_result cat "CouldNotValidate") n)%list.

(** C2, as stated, fails: three passed, one failed and one undetermined
    result in one pillar score 60, since the pillar score divides by all
    five results of the pillar. *)
Lemma C2_pillar_score_counterexample :
  entry "Security" (pillar_scores (calculate_summary (sample_results "Security" 3 1 1)))
  = Some {| score := 60; pillar_passed := 3; pillar_failed := 1;
            pillar_not_validated := 1; pillar_total := 5 |}.
Proof. vm_compute. reflexivity. Qed.

(** C2 (amended): for a pillar whose results are three Passed, one Failed
    and one Undetermined, the scorer reports score round(3/5*100) = 60 and
    total 5; a pillar with no result is still in the map, with score 0 and
    all counts 0. *)
Theorem C2_pillar_score (rs : list rule_result) (name : string) :
  In name (map pillar_name PILLARS) ->
  (count_status "Passed" (in_pillar name rs) = 3%nat ->
   count_status "Failed" (in_pillar name rs) = 1%nat ->
   count_status "CouldNotValidate" (in_pillar name rs) = 1%nat ->
   List.length (in_pillar name rs) = 5%nat ->
   entry name (pillar_scores (calculate_summary rs))
   = Some {| score := 60; pillar_passed := 3; pillar_failed := 1;
             pillar_not_validated := 1; pillar_total := 5 |})
  /\ (in_pillar name rs = [] ->
      entry name (pillar_scores (calculate_summary rs))
      = Some {| score := 0; pillar_passed := 0; pillar_failed := 0;
                pillar_not_validated := 0; pillar_total := 0 |}).
Proof.
  intros Hin. rewrite (entry_of_pillar name rs Hin). unfold score_pillar. split.
  - intros Hp Hf Hn Ht. rewrite Hp, Hf, Hn, Ht. vm_compute. reflexivity.
  - intros He. rewrite He. reflexivity.
Qed.

Lemma C2_pillar_score_witness :
  entry "Security" (pillar_scores (calculate_summary (sample_results "Security" 3 1 1)))
  = Some {| score := 60; pillar_passed := 3; pillar_failed := 1;
            pillar_not_validated := 1; pillar_total := 5 |}
  /\ entry "Reliability" (pillar_scores (calculate_summary (sample_results "Security" 3 1 1)))
     = Some {| score := 0; pillar_passed := 0; pillar_failed := 0;
               pillar_not_validated := 0; pillar_total := 0 |}.
Proof.
  split.
  - apply (C2_pillar_score (sample_results "Security" 3 1 1) "Security");
      [simpl; auto | reflexivity | reflexivity | reflexivity | reflexivity].
  - apply (C2_pillar_score (sample_results "Security" 3 1 1) "Reliability");
      [simpl; auto | reflexivity].
Defined.



(** ** Statuses and counts *)

Section EngineFacts.

Variable builtin_attr : value -> string -> option value.
Variable get_cluster : string -> string -> string -> res dict.
Variable run_resource_graph_query : string -> list string -> res (list dict).
Variable recommendations_file : catalog_file.
Variable kql_file : string -> option (res string).
Variable new_scan_id : string.
Variable started_iso : string.
Variable completed_iso : string.

Let evaluate_kql := evaluate_kql_query run_resource_graph_query kql_file.
Let evaluate := evaluate_recommendation builtin_attr run_resource_graph_query kql_file.
Let checks := run_checks builtin_attr run_resource_graph_query kql_file.
Let run := run_assessment builtin_attr get_cluster run_resource_graph_query
             recommendations_file kql_file new_scan_id started_iso completed_iso.

Ltac valid_now :=
  unfold valid_status; first [left; reflexivity | right; left; reflexivity
                             | right; right; reflexivity].

Lemma evaluate_kql_query_status (recommendation cluster_info : dict)
    (subscription st : string) :
  evaluate_kql recommendation cluster_info subscription = Ret st ->
  valid_status st.
Proof.
  unfold evaluate_kql, evaluate_kql_query.
  destruct (load_kql_query kql_file (get recommendation "query_file"))
    as [[q|]|e]; simpl; try discriminate.
  - destruct (PyStr.is_empty q).
    + intros [= <-]. valid_now.
    + destruct (run_resource_graph_query q [subscription]) as [records|e].
      * destruct (Nat.ltb 0 _); intros [= <-]; valid_now.
      * intros [= <-]. valid_now.
  - intros [= <-]. valid_now.
Qed.

Lemma evaluate_object_key_status (recommendation : dict) (cluster_data : value)
    (st : string) (actual : value) :
  evaluate_object_key builtin_attr recommendation cluster_data = Ret (st, actual) ->
  valid_status st.
Proof.
  unfold evaluate_object_key.
  destruct (negb (truthy (get recommendation "object_key"))
            || py_eq (get recommendation "object_key") (VStr "CouldNotValidated"))%bool.
  - intros [= <- _]. valid_now.
  - destruct (get recommendation "object_key"); try discriminate.
    unfold resolve_and_check.
    destruct (walk builtin_attr (path_keys s) cluster_data) as [v|e]; simpl.
    + destruct (check_expected v (get recommendation "object.value")) as [[|]|e];
        simpl; intros [= <- _]; valid_now.
    + intros [= <- _]. valid_now.
Qed.

Lemma evaluate_recommendation_status (recommendation : dict) (cluster_data : value)
    (cluster_info : dict) (subscription : string) :
  valid_status (status (evaluate recommendation cluster_data cluster_info subscription)).
Proof.
  unfold evaluate, evaluate_recommendation. simpl status.
  destruct (dispatch builtin_attr run_resource_graph_query kql_file
              recommendation cluster_data cluster_info subscription)
    as [[st actual]|e] eqn:D; simpl; [|valid_now].
  unfold dispatch in D.
  destruct (has_key "query_file" recommendation).
  - destruct (evaluate_kql_query run_resource_graph_query kql_file
                recommendation cluster_info subscription) as [st'|e] eqn:K;
      simpl in D; [|discriminate].
    injection D as <- _. exact (evaluate_kql_query_status _ _ _ _ K).
  - destruct (has_key "object_key" recommendation).
    + exact (evaluate_object_key_status _ _ _ _ D).
    + injection D as <- _. valid_now.
Qed.

Lemma run_checks_status (recs seen : list value) (acc rs : list rule_result)
    (cluster_data : value) (cluster_info : dict) (subscription : string) :
  Forall (fun r => valid_status (status r)) acc ->
  checks recs seen acc cluster_data cluster_info subscription = Ret rs ->
  Forall (fun r => valid_status (status r)) rs.
Proof.
  unfold checks. revert seen acc.
  induction recs as [|rec recs IH]; intros seen acc Hacc; simpl.
  - intros [= <-]. exact Hacc.
  - destruct rec; try discriminate.
    destruct (hashable (get d "recommendation_name")); [|discriminate].
    destruct (in_seen (get d "recommendation_name") seen).
    + apply IH, Hacc.
    + apply IH. apply Forall_app. split; [exact Hacc|].
      constructor; [apply evaluate_recommendation_status | constructor].
Qed.

(** Every result of a run has one of the three statuses. *)
Lemma run_results_status (subscription group cluster : string) :
  Forall (fun r => valid_status (status r)) (results (run subscription group cluster)).
Proof.
  unfold run, run_assessment.
  destruct (assess _ _ _ _ _ _ _ _) as [[cluster_info rs]|e] eqn:A; simpl;
    [|constructor].
  unfold assess in A.
  destruct (get_cluster subscription group cluster) as [info|e]; simpl in A;
    [|discriminate].
  destruct (load_recommendations recommendations_file) as [doc|e]; simpl in A;
    [|discriminate].
  destruct (py_iter doc) as [recs|e]; simpl in A; [|discriminate].
  destruct (run_checks _ _ _ recs [] [] _ _ _) as [rs'|e] eqn:C; simpl in A;
    [|discriminate].
  injection A as _ <-.
  exact (run_checks_status _ _ _ _ _ _ _ (Forall_nil _) C).
Qed.

(** C10: every result of a run has status Passed, Failed or
    CouldNotValidate; hence in the run's summary the total is the sum of the
    passed, failed and not validated counts, and so it is in every pillar
    entry. *)
Theorem C10_status_partition (subscription group cluster : string) :
  let r := run subscription group cluster in
  Forall (fun x => valid_status (status x)) (results r)
  /\ match run_summary r with
     | Some s =>
         total_checks s = (passed s + failed s + not_validated s)%nat
         /\ Forall (fun e : string * pillar_score =>
                      pillar_total (snd e)
                      = (pillar_passed (snd e) + pillar_failed (snd e)
                         + pillar_not_validated (snd e))%nat)
                   (pillar_scores s)
     | None => True
     end.
Proof.
  intros r. pose proof (run_results_status subscription group cluster) as H.
  fold r in H. split; [exact H|].
  subst r. unfold run, run_assessment in *.
  destruct (assess _ _ _ _ _ _ _ _) as [[cluster_info rs]|e]; simpl in *;
    [|exact I].
  split.
  - apply count_partition, H.
  - unfold calculate_summary. simpl pillar_scores.
    apply Forall_forall. intros [k ps] Hin. simpl in Hin.
    repeat (destruct Hin as [Hin|Hin];
            [injection Hin as <- <-; simpl;
             apply count_partition, in_pillar_valid, H|]).
    destruct Hin.
Qed.

End EngineFacts.

(** ** Query evaluator and run outcome *)

(** A catalog entry the loop of [run_assessment] gets through: a mapping
    whose name hashes. *)
Definition rule_ok (v : value) : bool :=
  match v with
  | VDict d => hashable (get d "recommendation_name")
  | _ => false
  end.

(** The catalog loads, iterates, and every entry is a rule. *)
Definition catalog_ok (f : catalog_file) : bool :=
  match load_recommendations f with
  | Ret document =>
      match py_iter document with
      | Ret recs => forallb rule_ok recs
      | Raise _ => false
      end
  | Raise _ => false
  end.

(** The records of a query answer that are about the assessed cluster. *)
Definition matching (cluster_info : dict) (records : list dict) : list dict :=
  filter (fun item => py_eq (get item "name") (get cluster_info "name")) records.

Lemma is_empty_false (s : string) : s <> EmptyString -> PyStr.is_empty s = false.
Proof. destruct s; [congruence | reflexivity]. Qed.

Section RunFacts.

Variable builtin_attr : value -> string -> option value.
Variable get_cluster : string -> string -> string -> res dict.
Variable run_resource_graph_query : string -> list string -> res (list dict).
Variable recommendations_file : catalog_file.
Variable kql_file : string -> option (res string).
Variable new_scan_id : string.
Variable started_iso : string.
Variable completed_iso : string.

Let evaluate := evaluate_recommendation builtin_attr run_resource_graph_query kql_file.
Let checks := run_checks builtin_attr run_resource_graph_query kql_file.
Let run := run_assessment builtin_attr get_cluster run_resource_graph_query
             recommendations_file kql_file new_scan_id started_iso completed_iso.

Lemma has_key_get (k : string) (d : dict) (v : value) :
  lookup k d = Some v -> has_key k d = true /\ get d k = v.
Proof.
  intros H. unfold has_key, get, get_default. rewrite H. split; reflexivity.
Qed.

(** C5: for a rule in query mode, with the query body found, a non-empty
    set of returned records that match the cluster's name gives Failed and
    an empty one gives Passed; a missing query body gives CouldNotValidate,
    and so does a query execution that raises. *)
Theorem C5_query_verdict (recommendation : dict) (cluster_data : value)
    (cluster_info : dict) (subscription name : string) :
  lookup "query_file" recommendation = Some (VStr name) ->
  let st := status (evaluate recommendation cluster_data cluster_info subscription) in
  (kql_file name = None -> st = "CouldNotValidate")
  /\ (forall q records,
        kql_file name = Some (Ret q) -> q <> EmptyString ->
        run_resource_graph_query q [subscription] = Ret records ->
        (matching cluster_info records <> [] -> st = "Failed")
        /\ (matching cluster_info records = [] -> st = "Passed"))
  /\ (forall q e,
        kql_file name = Some (Ret q) ->
        run_resource_graph_query q [subscription] = Raise e ->
        st = "CouldNotValidate").
Proof.
  intros Hq st. destruct (has_key_get _ _ _ Hq) as [Hk Hg].
  assert (Est : st = match evaluate_kql_query run_resource_graph_query kql_file
                             recommendation cluster_info subscription with
                     | Ret s => s
                     | Raise _ => "CouldNotValidate"
                     end).
  { subst st. unfold evaluate, evaluate_recommendation, dispatch. simpl status.
    rewrite Hk.
    destruct (evaluate_kql_query _ _ _ _ _); reflexivity. }
  rewrite Est. unfold evaluate_kql_query, load_kql_query. rewrite Hg.
  split; [|split].
  - intros ->. reflexivity.
  - intros q records Hf Hne Hr. rewrite Hf. cbn [bind].
    rewrite (is_empty_false q Hne), Hr. fold (matching cluster_info records).
    split; intros Hm.
    + destruct (matching cluster_info records); [congruence | reflexivity].
    + rewrite Hm. reflexivity.
  - intros q e Hf Hr. rewrite Hf. cbn [bind].
    destruct (PyStr.is_empty q); [reflexivity|]. rewrite Hr. reflexivity.
Qed.

Lemma run_checks_ok (recs seen : list value) (acc : list rule_result)
    (cluster_data : value) (cluster_info : dict) (subscription : string) :
  forallb rule_ok recs = true ->
  exists rs, checks recs seen acc cluster_data cluster_info subscription = Ret rs.
Proof.
  unfold checks. revert seen acc.
  induction recs as [|rec recs IH]; intros seen acc H; simpl.
  - eexists. reflexivity.
  - simpl in H. apply andb_true_iff in H. destruct H as [Hr Hrest].
    destruct rec; try discriminate. simpl in Hr. rewrite Hr.
    destruct (in_seen _ seen); apply IH, Hrest.
Qed.

Lemma run_checks_not_ok (recs seen : list value) (acc : list rule_result)
    (cluster_data : value) (cluster_info : dict) (subscription : string) :
  forallb rule_ok recs = false ->
  exists e, checks recs seen acc cluster_data cluster_info subscription = Raise e.
Proof.
  unfold checks. revert seen acc.
  induction recs as [|rec recs IH]; intros seen acc H; simpl; [discriminate|].
  simpl in H. apply andb_false_iff in H.
  destruct rec; try (eexists; reflexivity).
  simpl in H. destruct (hashable (get d "recommendation_name"));
    [|eexists; reflexivity].
  destruct H as [H|H]; [discriminate|].
  destruct (in_seen _ seen); apply IH, H.
Qed.

Lemma assess_fetch_fails (subscription group cluster : string) (e : exc) :
  get_cluster subscription group cluster = Raise e ->
  assess builtin_attr get_cluster run_resource_graph_query recommendations_file
         kql_file subscription group cluster = Raise e.
Proof. intros H. unfold assess. rewrite H. reflexivity. Qed.

Lemma assess_catalog_ok (subscription group cluster : string) (info : dict) :
  get_cluster subscription group cluster = Ret info ->
  catalog_ok recommendations_file = true ->
  exists rs,
    assess builtin_attr get_cluster run_resource_graph_query recommendations_file
           kql_file subscription group cluster = Ret (info, rs).
Proof.
  intros H Hc. unfold assess, catalog_ok in *. rewrite H. cbn [bind].
  destruct (load_recommendations recommendations_file) as [doc|e];
    [|discriminate]. cbn [bind].
  destruct (py_iter doc) as [recs|e]; [|discriminate]. cbn [bind].
  destruct (run_checks_ok recs [] [] (get_default info "_raw" (VDict [])) info
              subscription Hc) as [rs Hrs].
  unfold checks in Hrs. rewrite Hrs. exists rs. reflexivity.
Qed.

Lemma assess_catalog_fails (subscription group cluster : string) (info : dict) :
  get_cluster subscription group cluster = Ret info ->
  catalog_ok recommendations_file = false ->
  exists e,
    assess builtin_attr get_cluster run_resource_graph_query recommendations_file
           kql_file subscription group cluster = Raise e.
Proof.
  intros H Hc. unfold assess, catalog_ok in *. rewrite H. cbn [bind].
  destruct (load_recommendations recommendations_file) as [doc|e];
    [|eexists; reflexivity]. cbn [bind].
  destruct (py_iter doc) as [recs|e]; [|eexists; reflexivity]. cbn [bind].
  destruct (run_checks_not_ok recs [] [] (get_default info "_raw" (VDict [])) info
              subscription Hc) as [e He].
  unfold checks in He. rewrite He. exists e. reflexivity.
Qed.

(** C4 (amended): the run is failed, with no result, no summary and the
    error message set, when the configuration fetch raises, and no rule is
    then evaluated; once the configuration is fetched and the catalog loads
    as a sequence of rule mappings with hashable names, the run is
    completed, whatever the rules evaluate to; a catalog that fails to load
    or to iterate as such also gives a failed run. *)
Theorem C4_run_outcome (subscription group cluster : string) :
  let r := run subscription group cluster in
  (forall e, get_cluster subscription group cluster = Raise e ->
     r = {| scan_id := new_scan_id; subscription_id := subscription;
            resource_group := group; cluster_name := cluster;
            cluster_id := VNone; run_status := "failed";
            started_at := started_iso; completed_at := completed_iso;
            error_message := Some (exc_str e); run_summary := None;
            results := [] |})
  /\ (forall info, get_cluster subscription group cluster = Ret info ->
        catalog_ok recommendations_file = true ->
        run_status r = "completed" /\ error_message r = None
        /\ run_summary r = Some (calculate_summary (results r))
        /\ cluster_id r = get info "id")
  /\ (forall info, get_cluster subscription group cluster = Ret info ->
        catalog_ok recommendations_file = false ->
        run_status r = "failed" /\ results r = [] /\ run_summary r = None
        /\ exists msg, error_message r = Some msg).
Proof.
  intros r. subst r. unfold run, run_assessment. split; [|split].
  - intros e H. rewrite (assess_fetch_fails _ _ _ _ H). reflexivity.
  - intros info H Hc.
    destruct (assess_catalog_ok _ _ _ _ H Hc) as [rs ->]. simpl. auto.
  - intros info H Hc.
    destruct (assess_catalog_fails _ _ _ _ H Hc) as [e ->]. simpl.
    repeat split. exists (exc_str e). reflexivity.
Qed.

End RunFacts.

(** ** A concrete world *)

Definition sample_cluster : dict :=
  [("id", VStr "/subscriptions/s1/resourceGroups/rg1/providers/Microsoft.ContainerService/managedClusters/aks1");
   ("name", VStr "aks1");
   ("_raw",
    VDict [("sku", VDict [("name", VStr "Base"); ("tier", VStr "Standard")]);
           ("agent_pool_profiles",
            VList [VDict [("name", VStr "system"); ("count", VInt 3);
                          ("availability_zones", VList [VStr "1"; VStr "2"; VStr "3"])];
                   VDict [("name", VStr "user"); ("count", VInt 5)]]);
           ("enable_rbac", VBool true)])].

Definition fetch_ok (subscription group cluster : string) : res dict :=
  Ret sample_cluster.

Definition fetch_denied (subscription group cluster : string) : res dict :=
  Raise (Exc "HttpResponseError" "AuthorizationFailed").

(** A fleet query that reports two clusters, one of them [aks1]. *)
Definition query_two (query : string) (subscriptions : list string)
  : res (list dict) :=
  Ret [[("name", VStr "aks0")]; [("name", VStr "aks1"); ("location", VStr "westeurope")]].

Definition query_none (query : string) (subscriptions : list string)
  : res (list dict) := Ret [].

Definition query_fails (query : string) (subscriptions : list string)
  : res (list dict) := Raise (Exc "HttpResponseError" "BadRequest").

Definition kql_present (name : string) : option (res string) :=
  Some (Ret "resources | where type =~ 'microsoft.containerservice/managedclusters'").

Definition kql_absent (name : string) : option (res string) := None.

Definition query_rule : dict :=
  [("recommendation_name", VStr "Use availability zones");
   ("category", VStr "Reliability");
   ("query_file", VStr "zones.kql")].

(** A catalog whose rules all come out CouldNotValidate: one with no
    evaluation mode, one with the sentinel path. *)
Definition undetermined_catalog : value :=
  VList [VDict [("recommendation_name", VStr "No mode"); ("category", VStr "Security")];
         VDict [("recommendation_name", VStr "Sentinel"); ("category", VStr "Security");
                ("object_key", VStr "CouldNotValidated")]].

Lemma C5_query_verdict_witness :
  status (evaluate_recommendation no_attr query_two kql_present query_rule
            (VDict []) sample_cluster "s1") = "Failed"
  /\ status (evaluate_recommendation no_attr query_none kql_present query_rule
               (VDict []) sample_cluster "s1") = "Passed"
  /\ status (evaluate_recommendation no_attr query_fails kql_present query_rule
               (VDict []) sample_cluster "s1") = "CouldNotValidate"
  /\ status (evaluate_recommendation no_attr query_two kql_absent query_rule
               (VDict []) sample_cluster "s1") = "CouldNotValidate".
Proof.
  split; [|split; [|split]].
  - apply (proj1 (proj2 (C5_query_verdict no_attr query_two kql_present query_rule
                           (VDict []) sample_cluster "s1" "zones.kql" eq_refl))
             _ _ eq_refl ltac:(discriminate) eq_refl).
    discriminate.
  - apply (proj1 (proj2 (C5_query_verdict no_attr query_none kql_present query_rule
                           (VDict []) sample_cluster "s1" "zones.kql" eq_refl))
             _ _ eq_refl ltac:(discriminate) eq_refl).
    reflexivity.
  - apply (proj2 (proj2 (C5_query_verdict no_attr query_fails kql_present query_rule
                           (VDict []) sample_cluster "s1" "zones.kql" eq_refl))
             _ _ eq_refl eq_refl).
  - apply (proj1 (C5_query_verdict no_attr query_two kql_absent query_rule
                    (VDict []) sample_cluster "s1" "zones.kql" eq_refl) eq_refl).
Defined.

(** C4, as stated, fails: the configuration is fetched, the catalog file
    does not parse, and the run is failed. *)
Lemma C4_run_outcome_counterexample :
  fetch_ok "s1" "rg1" "aks1" = Ret sample_cluster
  /\ run_assessment no_attr fetch_ok query_none
       (Unreadable (Exc "JSONDecodeError" "Expecting value: line 1 column 1 (char 0)"))
       kql_absent "scan-1" "t0" "t1" "s1" "rg1" "aks1"
     = {| scan_id := "scan-1"; subscription_id := "s1"; resource_group := "rg1";
          cluster_name := "aks1"; cluster_id := VNone; run_status := "failed";
          started_at := "t0"; completed_at := "t1";
          error_message := Some "Expecting value: line 1 column 1 (char 0)";
          run_summary := None; results := [] |}.
Proof. split; reflexivity. Qed.

Lemma C4_run_outcome_witness :
  run_status (run_assessment no_attr fetch_denied query_none
                (Parsed undetermined_catalog) kql_absent
                "scan-1" "t0" "t1" "s1" "rg1" "aks1") = "failed"
  /\ run_status (run_assessment no_attr fetch_ok query_none
                   (Parsed undetermined_catalog) kql_absent
                   "scan-1" "t0" "t1" "s1" "rg1" "aks1") = "completed"
  /\ run_status (run_assessment no_attr fetch_ok query_none
                   (Parsed (VList [VStr "not a rule"])) kql_absent
                   "scan-1" "t0" "t1" "s1" "rg1" "aks1") = "failed".
Proof.
  split; [|split].
  - rewrite (proj1 (C4_run_outcome no_attr fetch_denied query_none
                      (Parsed undetermined_catalog) kql_absent
                      "scan-1" "t0" "t1" "s1" "rg1" "aks1")
               (Exc "HttpResponseError" "AuthorizationFailed") eq_refl).
    reflexivity.
  - apply (proj1 (proj2 (C4_run_outcome no_attr fetch_ok query_none
                           (Parsed undetermined_catalog) kql_absent
                           "scan-1" "t0" "t1" "s1" "rg1" "aks1"))
             sample_cluster eq_refl eq_refl).
  - apply (proj2 (proj2 (C4_run_outcome no_attr fetch_ok query_none
                           (Parsed (VList [VStr "not a rule"])) kql_absent
                           "scan-1" "t0" "t1" "s1" "rg1" "aks1"))
             sample_cluster eq_refl eq_refl).
Defined.

Example undetermined_run_completes :
  map status
    (results (run_assessment no_attr fetch_ok query_none
                (Parsed undetermined_catalog) kql_absent
                "scan-1" "t0" "t1" "s1" "rg1" "aks1"))
  = ["CouldNotValidate"; "CouldNotValidate"].
Proof. reflexivity. Qed.

(** ** Path evaluator *)

(** The current value has no entry for the key. *)
Definition missing_key (cur : value) (key : string) : Prop :=
  exists d, cur = VDict d /\ lookup key d = None.

(** The current value is a sequence and the key is a bracket token whose
    index is at or past its end. *)
Definition beyond_end (cur : value) (key : string) : Prop :=
  exists l idx,
    cur = VList l /\ is_bracket key = true
    /\ py_int (PyStr.slice_1_m1 key) = Ret idx
    /\ Z.of_nat (List.length l) <= idx.

Section PathFacts.

Variable builtin_attr : value -> string -> option value.

(** The traversal reaches some value [cur] and meets there a key that is
    missing or an index past the end. *)
Definition degrades (keys : list string) (root : value) : Prop :=
  exists pre key post cur,
    keys = (pre ++ key :: post)%list /\ key <> EmptyString
    /\ walk builtin_attr pre root = Ret cur
    /\ (missing_key cur key \/ beyond_end cur key).

Lemma walk_app (pre post : list string) (v : value) :
  walk builtin_attr (pre ++ post) v = (v' <- walk builtin_attr pre v ;; walk builtin_attr post v').
Proof.
  revert v. induction pre as [|k pre IH]; intros v; simpl.
  - reflexivity.
  - destruct (PyStr.is_empty k); [apply IH|].
    destruct (step builtin_attr v k) as [v'|e]; simpl;
      [apply IH | reflexivity].
Qed.

(** Once at the empty mapping, traversal stays there. *)
Lemma walk_empty_dict (keys : list string) :
  walk builtin_attr keys (VDict []) = Ret (VDict []).
Proof.
  induction keys as [|k keys IH]; simpl; [reflexivity|].
  destruct (PyStr.is_empty k); exact IH.
Qed.

Lemma walk_cons (key : string) (rest : list string) (v : value) :
  key <> EmptyString ->
  walk builtin_attr (key :: rest) v
  = (v' <- step builtin_attr v key ;; walk builtin_attr rest v').
Proof. intros H. simpl. rewrite (is_empty_false _ H). reflexivity. Qed.

Lemma is_bracket_not_empty (key : string) :
  is_bracket key = true -> key <> EmptyString.
Proof. destruct key; [discriminate | discriminate]. Qed.

Lemma step_missing (cur : value) (key : string) :
  missing_key cur key \/ beyond_end cur key -> step builtin_attr cur key = Ret (VDict []).
Proof.
  unfold step.
  intros [[d [-> Hl]] | [l [idx [-> [Hb [Hi Hle]]]]]].
  - unfold get_default. rewrite Hl. reflexivity.
  - rewrite Hb, Hi. simpl.
    destruct (Z.ltb_spec idx (Z.of_nat (List.length l))); [lia | reflexivity].
Qed.

Lemma walk_degrades (keys : list string) (root : value) :
  degrades keys root -> walk builtin_attr keys root = Ret (VDict []).
Proof.
  intros [pre [key [post [cur [-> [Hk [Hw Hm]]]]]]].
  rewrite walk_app, Hw. cbn [bind].
  rewrite (walk_cons _ _ _ Hk), (step_missing _ _ Hm). cbn [bind].
  apply walk_empty_dict.
Qed.

(** A rule in direct mode: its object key is a path string, neither empty
    nor the sentinel. *)
Definition direct_rule (recommendation : dict) (path : string) : Prop :=
  lookup "object_key" recommendation = Some (VStr path)
  /\ path <> EmptyString /\ path <> "CouldNotValidated".

Lemma evaluate_direct (recommendation : dict) (path : string) (data : value) :
  direct_rule recommendation path ->
  evaluate_object_key builtin_attr recommendation data
  = Ret match resolve_and_check builtin_attr (path_keys path) data
                (get recommendation "object.value") with
        | Ret r => r
        | Raise _ => ("CouldNotValidate", VNone)
        end.
Proof.
  intros [Hl [Hne Hs]].
  unfold evaluate_object_key.
  destruct (has_key_get _ _ _ Hl) as [_ ->]. simpl truthy. simpl py_eq.
  rewrite (is_empty_false _ Hne). simpl negb.
  destruct (String.eqb_spec path "CouldNotValidated") as [E|_]; [congruence|].
  simpl. destruct (resolve_and_check _ _ _ _); reflexivity.
Qed.

(** The verdict of a direct rule whose path resolves to [v]. *)
Lemma evaluate_resolved (recommendation : dict) (path : string) (data v : value) :
  direct_rule recommendation path ->
  walk builtin_attr (path_keys path) data = Ret v ->
  evaluate_object_key builtin_attr recommendation data
  = Ret match check_expected v (get recommendation "object.value") with
        | Ret ok => (if ok then "Passed" else "Failed", v)
        | Raise _ => ("CouldNotValidate", VNone)
        end.
Proof.
  intros Hd Hw. rewrite (evaluate_direct _ _ _ Hd).
  unfold resolve_and_check. rewrite Hw. cbn [bind].
  destruct (check_expected v _); reflexivity.
Qed.

(** C1 (amended): for a direct-mode rule whose path traverses a missing
    mapping key or a sequence index at or past the end, traversal ends at
    the empty mapping and the evaluator returns without raising; the
    verdict is the comparison of the empty mapping with the expected value:
    Passed or Failed with the empty mapping as actual value whenever the
    expected value is not a list, Failed for a plain string other than the
    rendering of the empty mapping; CouldNotValidate with no actual value
    only when that comparison raises. *)
Theorem C1_degraded_path (recommendation : dict) (path : string) (data : value) :
  direct_rule recommendation path ->
  degrades (path_keys path) data ->
  let expected := get recommendation "object.value" in
  walk builtin_attr (path_keys path) data = Ret (VDict [])
  /\ evaluate_object_key builtin_attr recommendation data
     = Ret match check_expected (VDict []) expected with
           | Ret ok => (if ok then "Passed" else "Failed", VDict [])
           | Raise _ => ("CouldNotValidate", VNone)
           end
  /\ ((forall items, expected <> VList items) ->
      exists ok : bool,
        evaluate_object_key builtin_attr recommendation data
        = Ret (if ok then "Passed" else "Failed", VDict []))
  /\ (forall e, expected = VStr e -> PyStr.contains_char "|" e = false ->
      PyStr.lower e <> "{}" ->
      evaluate_object_key builtin_attr recommendation data = Ret ("Failed", VDict [])).
Proof.
  intros Hd Hdeg expected. pose proof (walk_degrades _ _ Hdeg) as Hw.
  pose proof (evaluate_resolved _ _ _ _ Hd Hw) as He. fold expected in He.
  split; [exact Hw|]. split; [exact He|]. split.
  - intros Hnl. rewrite He. unfold check_expected.
    destruct expected; try (eexists; reflexivity).
    + destruct (PyStr.contains_char "|" s); eexists; reflexivity.
    + exfalso. apply (Hnl l). reflexivity.
  - intros e Hx Hp Hl. rewrite He, Hx. unfold check_expected. rewrite Hp.
    simpl py_str. change (PyStr.lower "{}") with "{}".
    destruct (String.eqb_spec "{}" (PyStr.lower e)) as [E|_]; [congruence|].
    reflexivity.
Qed.

(** C9: on a sequence of length L, a bracket token with a negative index n
    resolves to the element at position L + n when -L <= n; when n < -L the
    indexing raises, and the evaluator returns CouldNotValidate with no
    actual value. *)
Theorem C9_negative_index (l : list value) (key : string) (n : Z) :
  is_bracket key = true ->
  py_int (PyStr.slice_1_m1 key) = Ret n ->
  n < 0 ->
  let len := Z.of_nat (List.length l) in
  (- len <= n ->
   exists v, nth_error l (Z.to_nat (len + n)) = Some v
             /\ step builtin_attr (VList l) key = Ret v)
  /\ (n < - len ->
      (exists e, step builtin_attr (VList l) key = Raise e)
      /\ forall recommendation path data pre post,
           direct_rule recommendation path ->
           path_keys path = (pre ++ key :: post)%list ->
           walk builtin_attr pre data = Ret (VList l) ->
           evaluate_object_key builtin_attr recommendation data
           = Ret ("CouldNotValidate", VNone)).
Proof.
  intros Hb Hi Hn len.
  assert (Hstep : step builtin_attr (VList l) key = list_index l n).
  { unfold step. rewrite Hb, Hi. simpl.
    destruct (Z.ltb_spec n (Z.of_nat (List.length l))); [reflexivity | lia]. }
  split.
  - intros Hlo. rewrite Hstep. unfold list_index. fold len.
    destruct (Z.ltb_spec n 0); [|lia].
    destruct (Z.leb_spec 0 (n + len)); [|lia].
    destruct (Z.ltb_spec (n + len) len); [|lia]. simpl.
    destruct (nth_error l (Z.to_nat (n + len))) as [v|] eqn:E.
    + exists v. rewrite Z.add_comm, E. split; reflexivity.
    + apply nth_error_None in E. lia.
  - intros Hlo.
    assert (Hr : step builtin_attr (VList l) key = Raise (IndexError "list index out of range")).
    { rewrite Hstep. unfold list_index. fold len.
      destruct (Z.ltb_spec n 0); [|lia].
      destruct (Z.leb_spec 0 (n + len)); [lia | reflexivity]. }
    split; [eexists; exact Hr|].
    intros recommendation path data pre post Hd Hp Hw.
    rewrite (evaluate_direct _ _ _ Hd). unfold resolve_and_check.
    rewrite Hp, walk_app, Hw. cbn [bind].
    rewrite (walk_cons _ _ _ (is_bracket_not_empty _ Hb)), Hr. reflexivity.
Qed.

End PathFacts.

(** C1, as stated, fails: the path meets a missing key, and the verdict is
    Failed with the empty mapping as actual value. *)
Lemma C1_degraded_path_counterexample :
  lookup "network_profile" [("sku", VDict [("tier", VStr "Standard")])] = None
  /\ evaluate_object_key no_attr
       [("object_key", VStr "network_profile.network_policy");
        ("object.value", VStr "calico|azure")]
       (VDict [("sku", VDict [("tier", VStr "Standard")])])
     = Ret ("Failed", VDict [])
  /\ actual_value
       (evaluate_recommendation no_attr query_none kql_absent
          [("recommendation_name", VStr "Network policy");
           ("object_key", VStr "network_profile.network_policy");
           ("object.value", VStr "calico|azure")]
          (VDict [("sku", VDict [("tier", VStr "Standard")])]) sample_cluster "s1")
     = Some "{}".
Proof. split; [|split]; reflexivity. Qed.

Definition zones_rule : dict :=
  [("recommendation_name", VStr "Zone of the third pool");
   ("object_key", VStr "agent_pool_profiles[2].availability_zones");
   ("object.value", VStr "1")].

Lemma zones_rule_degrades :
  degrades no_attr (path_keys "agent_pool_profiles[2].availability_zones")
           (get sample_cluster "_raw").
Proof.
  exists ["agent_pool_profiles"], "[2]", ["availability_zones"].
  eexists. split; [reflexivity|]. split; [discriminate|].
  split; [reflexivity|]. right.
  eexists. exists 2. split; [reflexivity|]. split; [reflexivity|].
  split; [reflexivity|]. simpl. lia.
Qed.

Lemma zones_rule_direct :
  direct_rule zones_rule "agent_pool_profiles[2].availability_zones".
Proof. split; [reflexivity|]. split; discriminate. Qed.

Lemma C1_degraded_path_witness :
  evaluate_object_key no_attr zones_rule (get sample_cluster "_raw")
  = Ret ("Failed", VDict []).
Proof.
  pose proof (C1_degraded_path no_attr zones_rule _ _ zones_rule_direct
                zones_rule_degrades) as H.
  destruct H as [_ [_ [_ H]]].
  refine (H "1" _ _ _); [reflexivity | reflexivity | discriminate].
Defined.

Definition third_from_end_rule : dict :=
  [("object_key", VStr "agent_pool_profiles[-3].name");
   ("object.value", VStr "system")].

Lemma third_from_end_direct :
  direct_rule third_from_end_rule "agent_pool_profiles[-3].name".
Proof. split; [reflexivity|]. split; discriminate. Qed.

Lemma C9_negative_index_witness :
  step no_attr (VList [VInt 10; VInt 20; VInt 30]) "[-1]" = Ret (VInt 30)
  /\ evaluate_object_key no_attr third_from_end_rule (get sample_cluster "_raw")
     = Ret ("CouldNotValidate", VNone).
Proof.
  split.
  - pose proof (C9_negative_index no_attr [VInt 10; VInt 20; VInt 30] "[-1]" (-1)
                  eq_refl eq_refl eq_refl) as H.
    destruct H as [H _]. destruct H as [v [Hn Hs]]; [simpl; lia|].
    simpl in Hn. injection Hn as <-. exact Hs.
  - pose proof (C9_negative_index no_attr
                  [VDict [("name", VStr "system"); ("count", VInt 3);
                          ("availability_zones", VList [VStr "1"; VStr "2"; VStr "3"])];
                   VDict [("name", VStr "user"); ("count", VInt 5)]]
                  "[-3]" (-3) eq_refl eq_refl eq_refl) as H.
    destruct H as [_ H]. destruct H as [_ H]; [simpl; lia|].
    refine (H third_from_end_rule "agent_pool_profiles[-3].name"
              (get sample_cluster "_raw") ["agent_pool_profiles"] ["name"]
              third_from_end_direct _ _); reflexivity.
Defined.

Example negative_index_in_path :
  evaluate_object_key no_attr
    [("object_key", VStr "agent_pool_profiles[-1].name"); ("object.value", VStr "USER")]
    (get sample_cluster "_raw")
  = Ret ("Passed", VStr "user").
Proof. reflexivity. Qed.

(** ** Comparison with the expected value *)

(** The other case of a letter; any other character is left as it is. *)
Definition case_swap (c : ascii) : ascii :=
  if PyStr.is_upper c then PyStr.lower_char c
  else if PyStr.is_lower c then PyStr.upper_char c
  else c.

(** [t] is [s] with the case of some of its letters changed. *)
Inductive case_variant : string -> string -> Prop :=
| cv_empty : case_variant EmptyString EmptyString
| cv_same (c : ascii) (s t : string) :
    case_variant s t -> case_variant (String c s) (String c t)
| cv_swap (c : ascii) (s t : string) :
    case_variant s t -> case_variant (String c s) (String (case_swap c) t).


Ltac each_char c :=
  destruct c as [[] [] [] [] [] [] [] []]; vm_compute; reflexivity.




Lemma case_variant_refl (s : string) : case_variant s s.
Proof. induction s; constructor; assumption. Qed.








(** A string has the separator exactly when it splits in two parts or more. *)
Lemma split_not_nil (sep : ascii) (s : string) : PyStr.split sep s <> [].
Proof.
  destruct s as [|c s]; simpl; [discriminate|].
  destruct (Ascii.eqb c sep); [discriminate|].
  destruct (PyStr.split sep s); discriminate.
Qed.

Lemma split_length (sep : ascii) (s : string) :
  PyStr.contains_char sep s = Nat.ltb 1 (List.length (PyStr.split sep s)).
Proof.
  induction s as [|c s IH]; simpl; [reflexivity|].
  destruct (Ascii.eqb c sep); simpl.
  - pose proof (split_not_nil sep s).
    destruct (PyStr.split sep s); [congruence | reflexivity].
  - rewrite IH. pose proof (split_not_nil sep s).
    destruct (PyStr.split sep s); [congruence | reflexivity].
Qed.




Section ComparisonFacts.

Variable builtin_attr : value -> string -> option value.



End ComparisonFacts.






Definition tier_rule (allowed : string) : dict :=
  [("object_key", VStr "sku.tier"); ("object.value", VStr allowed)].

Lemma tier_rule_direct (allowed : string) : direct_rule (tier_rule allowed) "sku.tier".
Proof. split; [reflexivity|]. split; discriminate. Qed.



(** ** Deduplication *)

(** [rec.get("recommendation_name")] *)
Definition rule_name (r : dict) : value := get r "recommendation_name".

(** The rules the loop evaluates, given the names seen so far. *)
Fixpoint select (rules : list dict) (seen : list value) : list dict :=
  match rules with
  | [] => []
  | r :: rest =>
      if in_seen (rule_name r) seen then select rest seen
      else r :: select rest (rule_name r :: seen)
  end.

(** [k] stands in the catalog with no rule of the same name before it. *)
Definition first_occurrence (rules : list dict) (k : dict) : Prop :=
  exists pre post,
    rules = (pre ++ k :: post)%list
    /\ Forall (fun p => py_eq (rule_name p) (rule_name k) = false) pre.

(** [l] is [l'] with some elements left out, the order kept. *)
Inductive subseq {A : Type} : list A -> list A -> Prop :=
| subseq_nil : subseq [] []
| subseq_skip (x : A) (l l' : list A) : subseq l l' -> subseq l (x :: l')
| subseq_keep (x : A) (l l' : list A) : subseq l l' -> subseq (x :: l) (x :: l').

(** Equal hashable values are the same value once a bool is read as an
    integer. *)
Definition norm (v : value) : value :=
  match v with
  | VBool b => VInt (Z_of_bool b)
  | _ => v
  end.

Lemma py_eq_norm (a b : value) :
  hashable a = true -> hashable b = true ->
  (py_eq a b = true <-> norm a = norm b).
Proof.
  destruct a, b; simpl; try discriminate; intros _ _;
    try (split; [discriminate | discriminate]);
    try (split; reflexivity).
  - destruct b, b0; simpl; split; try reflexivity; discriminate.
  - rewrite Z.eqb_eq. split; [intros ->; reflexivity | intros [= ->]; reflexivity].
  - rewrite Z.eqb_eq. split; [intros ->; reflexivity | intros [= ->]; reflexivity].
  - rewrite Z.eqb_eq. split; [intros ->; reflexivity | intros [= ->]; reflexivity].
  - rewrite String.eqb_eq. split; [intros ->; reflexivity | intros [= ->]; reflexivity].
  - rewrite String.eqb_eq. split; [intros ->; reflexivity | intros [= ->]; reflexivity].
Qed.

Lemma py_eq_refl (a : value) : hashable a = true -> py_eq a a = true.
Proof. intros H. apply (py_eq_norm a a H H). reflexivity. Qed.

Lemma py_eq_sym (a b : value) :
  hashable a = true -> hashable b = true -> py_eq a b = py_eq b a.
Proof.
  intros Ha Hb. apply eq_true_iff_eq.
  rewrite (py_eq_norm a b Ha Hb), (py_eq_norm b a Hb Ha). split; congruence.
Qed.

Lemma py_eq_trans (a b c : value) :
  hashable a = true -> hashable b = true -> hashable c = true ->
  py_eq a b = true -> py_eq b c = true -> py_eq a c = true.
Proof.
  intros Ha Hb Hc. rewrite (py_eq_norm a b Ha Hb), (py_eq_norm b c Hb Hc),
    (py_eq_norm a c Ha Hc). congruence.
Qed.

Definition names_hashable (rules : list dict) : Prop :=
  Forall (fun r => hashable (rule_name r) = true) rules.

Lemma select_subseq (rules : list dict) (seen : list value) :
  subseq (select rules seen) rules.
Proof.
  revert seen. induction rules as [|r rules IH]; intros seen; simpl.
  - constructor.
  - destruct (in_seen (rule_name r) seen); constructor; apply IH.
Qed.

Lemma select_not_seen (rules : list dict) (seen : list value) (k : dict) :
  In k (select rules seen) -> in_seen (rule_name k) seen = false.
Proof.
  revert seen. induction rules as [|r rules IH]; intros seen; simpl; [tauto|].
  destruct (in_seen (rule_name r) seen) eqn:E.
  - apply IH.
  - intros [<-|Hin]; [exact E|].
    apply IH in Hin. simpl in Hin. apply orb_false_iff in Hin. apply Hin.
Qed.

Lemma select_distinct (rules : list dict) (seen : list value) :
  names_hashable rules ->
  ForallOrdPairs (fun a b => py_eq (rule_name a) (rule_name b) = false)
                 (select rules seen).
Proof.
  intros Hh. revert seen.
  induction Hh as [|r rules Hr Hh IH]; intros seen; simpl; [constructor|].
  destruct (in_seen (rule_name r) seen); [apply IH|].
  constructor; [|apply IH].
  apply Forall_forall. intros k Hin.
  pose proof (select_not_seen _ _ _ Hin) as Hn. simpl in Hn.
  apply orb_false_iff in Hn. destruct Hn as [Hn _].
  rewrite py_eq_sym; [exact Hn | exact Hr |].
  pose proof (select_subseq rules (rule_name r :: seen)) as Hs.
  clear - Hin Hh Hs. unfold names_hashable in Hh. rewrite Forall_forall in Hh.
  apply Hh. induction Hs; simpl in *; [tauto | auto |].
  destruct Hin as [<-|Hin]; auto.
Qed.

Lemma subseq_In {A : Type} (l l' : list A) (x : A) :
  subseq l l' -> In x l -> In x l'.
Proof.
  induction 1; simpl; [tauto | auto |]. intros [<-|H']; auto.
Qed.

Lemma in_seen_true (x : value) (seen : list value) :
  in_seen x seen = true -> exists s, In s seen /\ py_eq x s = true.
Proof. unfold in_seen. rewrite existsb_exists. tauto. Qed.

Lemma select_first (rules : list dict) (seen : list value) (k : dict) :
  names_hashable rules -> Forall (fun s => hashable s = true) seen ->
  In k (select rules seen) -> first_occurrence rules k.
Proof.
  intros Hh. revert seen.
  induction Hh as [|r rules Hr Hh IH]; intros seen Hseen; simpl; [tauto|].
  assert (Hk : forall sn, In k (select rules sn) -> hashable (rule_name k) = true).
  { intros sn Hin. unfold names_hashable in Hh. rewrite Forall_forall in Hh.
    apply Hh. exact (subseq_In _ _ _ (select_subseq rules sn) Hin). }
  destruct (in_seen (rule_name r) seen) eqn:E.
  - intros Hin. destruct (IH seen Hseen Hin) as [pre [post [-> Hpre]]].
    exists (r :: pre), post. split; [reflexivity|]. constructor; [|exact Hpre].
    destruct (py_eq (rule_name r) (rule_name k)) eqn:Erk; [|reflexivity].
    apply in_seen_true in E. destruct E as [s [Hs Ers]].
    rewrite Forall_forall in Hseen.
    assert (Hks : py_eq (rule_name k) s = true).
    { apply (py_eq_trans _ (rule_name r)); auto.
      - exact (Hk _ Hin).
      - rewrite py_eq_sym; auto. exact (Hk _ Hin). }
    pose proof (select_not_seen _ _ _ Hin) as Hn. unfold in_seen in Hn.
    assert (Ht : existsb (py_eq (rule_name k)) seen = true).
    { apply existsb_exists. exists s. split; assumption. }
    congruence.
  - intros [<-|Hin].
    + exists [], rules. split; [reflexivity | constructor].
    + assert (Hseen' : Forall (fun s => hashable s = true) (rule_name r :: seen)).
      { constructor; assumption. }
      destruct (IH _ Hseen' Hin) as [pre [post [-> Hpre]]].
      exists (r :: pre), post. split; [reflexivity|]. constructor; [|exact Hpre].
      pose proof (select_not_seen _ _ _ Hin) as Hn. simpl in Hn.
      apply orb_false_iff in Hn. destruct Hn as [Hn _].
      rewrite py_eq_sym; [exact Hn | exact Hr | exact (Hk _ Hin)].
Qed.

Lemma select_covers (rules : list dict) (seen : list value) (r : dict) :
  names_hashable rules -> In r rules ->
  in_seen (rule_name r) seen = true
  \/ exists k, In k (select rules seen) /\ py_eq (rule_name r) (rule_name k) = true.
Proof.
  intros Hh. revert seen.
  induction Hh as [|r0 rules Hr Hh IH]; intros seen; simpl; [tauto|].
  destruct (in_seen (rule_name r0) seen) eqn:E.
  - intros [<-|Hin]; [left; exact E | apply IH, Hin].
  - intros [<-|Hin].
    + right. exists r0. split; [left; reflexivity | apply py_eq_refl, Hr].
    + destruct (IH (rule_name r0 :: seen) Hin) as [Hs|[k [Hk Hek]]].
      * simpl in Hs. apply orb_true_iff in Hs. destruct Hs as [Hs|Hs].
        -- right. exists r0. split; [left; reflexivity | exact Hs].
        -- left. exact Hs.
      * right. exists k. split; [right; exact Hk | exact Hek].
Qed.

Section DeduplicationFacts.

Variable builtin_attr : value -> string -> option value.
Variable get_cluster : string -> string -> string -> res dict.
Variable run_resource_graph_query : string -> list string -> res (list dict).
Variable recommendations_file : catalog_file.
Variable kql_file : string -> option (res string).
Variable new_scan_id : string.
Variable started_iso : string.
Variable completed_iso : string.

Let evaluate := evaluate_recommendation builtin_attr run_resource_graph_query kql_file.
Let run := run_assessment builtin_attr get_cluster run_resource_graph_query
             recommendations_file kql_file new_scan_id started_iso completed_iso.

(** The loop returns the results gathered so far followed by one result
    per selected rule. *)
Lemma run_checks_select (rules : list dict) (seen : list value)
    (acc : list rule_result) (data : value) (info : dict) (subscription : string) :
  names_hashable rules ->
  run_checks builtin_attr run_resource_graph_query kql_file
             (map VDict rules) seen acc data info subscription
  = Ret (acc ++ map (fun r => evaluate r data info subscription)
                    (select rules seen))%list.
Proof.
  intros Hh. revert seen acc.
  induction Hh as [|r rules Hr Hh IH]; intros seen acc; simpl.
  - rewrite app_nil_r. reflexivity.
  - fold (rule_name r). rewrite Hr.
    destruct (in_seen (rule_name r) seen); [apply IH|].
    rewrite IH. simpl. rewrite <- app_assoc. reflexivity.
Qed.

(** C6: for a fetched cluster and a catalog of rules, the run has one
    result per selected rule, in order; the selected rules are a
    subsequence of the catalog, their names are pairwise different, each is
    the first rule of its name in the catalog, and every name of the catalog
    is the name of a selected rule. *)
Theorem C6_deduplication (subscription group cluster : string) (info : dict)
    (rules : list dict) :
  get_cluster subscription group cluster = Ret info ->
  recommendations_file = Parsed (VList (map VDict rules)) ->
  names_hashable rules ->
  exists kept,
    results (run subscription group cluster)
    = map (fun r => evaluate r (get_default info "_raw" (VDict [])) info subscription)
          kept
    /\ map recommendation_name (results (run subscription group cluster))
       = map (fun r => get_default r "recommendation_name" (VStr "Unknown")) kept
    /\ subseq kept rules
    /\ ForallOrdPairs (fun a b => py_eq (rule_name a) (rule_name b) = false) kept
    /\ (forall k, In k kept -> first_occurrence rules k)
    /\ (forall r, In r rules ->
          exists k, In k kept /\ py_eq (rule_name r) (rule_name k) = true).
Proof.
  intros Hf Hc Hh. exists (select rules []).
  assert (Hres : results (run subscription group cluster)
                 = map (fun r => evaluate r (get_default info "_raw" (VDict []))
                                   info subscription) (select rules [])).
  { unfold run, run_assessment, assess. rewrite Hf, Hc. cbn [bind load_recommendations py_iter].
    rewrite (run_checks_select rules [] [] _ _ _ Hh). reflexivity. }
  split; [exact Hres|]. split.
  - rewrite Hres, map_map. reflexivity.
  - split; [apply select_subseq|]. split; [apply select_distinct, Hh|]. split.
    + intros k Hk. exact (select_first _ _ _ Hh (Forall_nil _) Hk).
    + intros r Hr. destruct (select_covers rules [] r Hh Hr) as [Hs|Hk];
        [discriminate | exact Hk].
Qed.

End DeduplicationFacts.

(** Two rules named alike with different bodies, and a third rule. *)
Definition duplicate_catalog : list dict :=
  [[("recommendation_name", VStr "Use zones"); ("category", VStr "Reliability");
    ("object_key", VStr "sku.tier"); ("object.value", VStr "standard|premium")];
   [("recommendation_name", VStr "Enable RBAC"); ("category", VStr "Security");
    ("object_key", VStr "enable_rbac"); ("object.value", VStr "true")];
   [("recommendation_name", VStr "Use zones"); ("category", VStr "Performance Efficiency");
    ("query_file", VStr "zones.kql")]].

Lemma duplicate_catalog_hashable : names_hashable duplicate_catalog.
Proof. repeat constructor. Qed.

Lemma C6_deduplication_witness :
  exists kept,
    results (run_assessment no_attr fetch_ok query_two
               (Parsed (VList (map VDict duplicate_catalog))) kql_present
               "scan-1" "t0" "t1" "s1" "rg1" "aks1")
    = map (fun r => evaluate_recommendation no_attr query_two kql_present r
                      (get_default sample_cluster "_raw" (VDict []))
                      sample_cluster "s1") kept
    /\ subseq kept duplicate_catalog
    /\ ForallOrdPairs (fun a b => py_eq (rule_name a) (rule_name b) = false) kept
    /\ (forall k, In k kept -> first_occurrence duplicate_catalog k).
Proof.
  destruct (C6_deduplication no_attr fetch_ok query_two
              (Parsed (VList (map VDict duplicate_catalog))) kql_present
              "scan-1" "t0" "t1" "s1" "rg1" "aks1" sample_cluster duplicate_catalog
              eq_refl eq_refl duplicate_catalog_hashable)
    as [kept [Hres [_ [Hsub [Hdis [Hfirst _]]]]]].
  exists kept. split; [exact Hres|]. split; [exact Hsub|].
  split; [exact Hdis | exact Hfirst].
Defined.

Example duplicate_catalog_run :
  map (fun r => (recommendation_name r, category r, status r))
      (results (run_assessment no_attr fetch_ok query_two
                  (Parsed (VList (map VDict duplicate_catalog))) kql_present
                  "scan-1" "t0" "t1" "s1" "rg1" "aks1"))
  = [(VStr "Use zones", VStr "Reliability", "Passed");
     (VStr "Enable RBAC", VStr "Security", "Passed")].
Proof. reflexivity. Qed.

(** * Further properties of the engine *)

(** ** Object keys, modes and path segments *)

Section EvaluatorEdges.

Variable builtin_attr : value -> string -> option value.
Variable run_resource_graph_query : string -> list string -> res (list dict).
Variable kql_file : string -> option (res string).

Let evaluate := evaluate_recommendation builtin_attr run_resource_graph_query kql_file.

Lemma py_eq_non_string (k : value) (s : string) :
  (forall t, k <> VStr t) -> py_eq k (VStr s) = false.
Proof. destruct k; intros H; try reflexivity. exfalso. apply (H s0). reflexivity. Qed.

(** X1: the evaluator answers CouldNotValidate with no value, without
    looking at the tree, when the object key is absent, falsy or the
    sentinel; with a string key it never raises; with any other truthy key
    it raises, and [_evaluate_recommendation] reports CouldNotValidate with
    an actual value that starts with the error prefix. *)
Theorem object_key_cases (recommendation : dict) (data : value) :
  let key := get recommendation "object_key" in
  (truthy key = false \/ key = VStr "CouldNotValidated" ->
   evaluate_object_key builtin_attr recommendation data
   = Ret ("CouldNotValidate", VNone))
  /\ ((exists path, key = VStr path) ->
      exists st actual,
        evaluate_object_key builtin_attr recommendation data = Ret (st, actual))
  /\ (truthy key = true -> (forall path, key <> VStr path) ->
      (exists e, evaluate_object_key builtin_attr recommendation data = Raise e)
      /\ (has_key "query_file" recommendation = false ->
          has_key "object_key" recommendation = true ->
          forall info subscription,
            status (evaluate recommendation data info subscription)
            = "CouldNotValidate"
            /\ exists msg,
                 actual_value (evaluate recommendation data info subscription)
                 = Some ("Error: " ++ msg))).
Proof.
  intros key. unfold evaluate_object_key. fold key. split; [|split].
  - intros [H | H].
    + rewrite H. reflexivity.
    + rewrite H. simpl. reflexivity.
  - intros [path Hp]. rewrite Hp.
    destruct (negb (truthy (VStr path)) || py_eq (VStr path) (VStr "CouldNotValidated"))%bool;
      [eexists; eexists; reflexivity|].
    destruct (resolve_and_check _ _ _ _) as [[st actual]|e];
      eexists; eexists; reflexivity.
  - intros Ht Hn.
    assert (Hr : evaluate_object_key builtin_attr recommendation data
                 = Raise (AttributeError "object has no attribute 'replace'")).
    { unfold evaluate_object_key. fold key.
      rewrite Ht, (py_eq_non_string key _ Hn). simpl.
      destruct key; try reflexivity. exfalso. apply (Hn s). reflexivity. }
    unfold evaluate_object_key in Hr. fold key in Hr.
    split; [eexists; exact Hr|].
    intros Hq Hk info subscription.
    unfold evaluate, evaluate_recommendation, dispatch. rewrite Hq, Hk.
    unfold evaluate_object_key. fold key. rewrite Hr. simpl.
    split; [reflexivity | eexists; reflexivity].
Qed.

(** X2: a rule with a query file is evaluated by the query evaluator
    alone: its result does not depend on the configuration tree, even when
    the rule also has an object key; a rule with neither key is
    CouldNotValidate with no actual value. *)
Theorem mode_selection (recommendation : dict) (info : dict) (subscription : string) :
  (has_key "query_file" recommendation = true ->
   forall data1 data2,
     evaluate recommendation data1 info subscription
     = evaluate recommendation data2 info subscription)
  /\ (has_key "query_file" recommendation = false ->
      has_key "object_key" recommendation = false ->
      forall data,
        status (evaluate recommendation data info subscription) = "CouldNotValidate"
        /\ actual_value (evaluate recommendation data info subscription) = None).
Proof.
  split.
  - intros Hq data1 data2. unfold evaluate, evaluate_recommendation, dispatch.
    rewrite Hq. reflexivity.
  - intros Hq Hk data. unfold evaluate, evaluate_recommendation, dispatch.
    rewrite Hq, Hk. split; reflexivity.
Qed.

(** Keys that are not empty. *)
Definition segments (keys : list string) : list string :=
  filter (fun k => negb (PyStr.is_empty k)) keys.

Lemma walk_segments (keys : list string) (v : value) :
  walk builtin_attr keys v = walk builtin_attr (segments keys) v.
Proof.
  revert v. induction keys as [|k keys IH]; intros v; simpl; [reflexivity|].
  destruct (PyStr.is_empty k) eqn:E; simpl; [apply IH|].
  rewrite E. destruct (step builtin_attr v k); simpl; [apply IH | reflexivity].
Qed.

(** X3: empty path segments are skipped: two rules that differ only in
    their paths, with the same non-empty segments in the same order, get
    the same verdict and value. *)
Theorem empty_segments_skipped (rec1 rec2 : dict) (path1 path2 : string)
    (data : value) :
  direct_rule rec1 path1 -> direct_rule rec2 path2 ->
  get rec1 "object.value" = get rec2 "object.value" ->
  segments (path_keys path1) = segments (path_keys path2) ->
  evaluate_object_key builtin_attr rec1 data
  = evaluate_object_key builtin_attr rec2 data.
Proof.
  intros H1 H2 He Hs.
  rewrite (evaluate_direct _ _ _ _ H1), (evaluate_direct _ _ _ _ H2).
  unfold resolve_and_check.
  rewrite (walk_segments (path_keys path1)), (walk_segments (path_keys path2)).
  rewrite Hs, He. reflexivity.
Qed.

(** X4: a bracket token whose inside is not an integer, met on a
    sequence, makes the evaluator answer CouldNotValidate with no value. *)
Theorem bad_index_undetermined (recommendation : dict) (path : string)
    (data : value) (pre post : list string) (key : string) (l : list value) :
  direct_rule recommendation path ->
  path_keys path = (pre ++ key :: post)%list ->
  walk builtin_attr pre data = Ret (VList l) ->
  is_bracket key = true ->
  PyStr.parse_int (PyStr.slice_1_m1 key) = None ->
  evaluate_object_key builtin_attr recommendation data
  = Ret ("CouldNotValidate", VNone).
Proof.
  intros Hd Hp Hw Hb Hi.
  rewrite (evaluate_direct _ _ _ _ Hd). unfold resolve_and_check.
  rewrite Hp, walk_app, Hw. cbn [bind].
  rewrite (walk_cons _ _ _ _ (is_bracket_not_empty _ Hb)).
  unfold step. rewrite Hb. unfold py_int. rewrite Hi. reflexivity.
Qed.

End EvaluatorEdges.

(** ** More on the comparison *)


(** Every character of the string is whitespace. *)
Fixpoint blank (s : string) : bool :=
  match s with
  | EmptyString => true
  | String c s' => (PyStr.is_space c && blank s')%bool
  end.

(** [b] is [a] with whitespace added in front and behind. *)
Definition padded (a b : string) : Prop :=
  exists l r, blank l = true /\ blank r = true /\ b = l ++ a ++ r.

Lemma lstrip_blank (l s : string) :
  blank l = true -> PyStr.lstrip (l ++ s) = PyStr.lstrip s.
Proof.
  induction l as [|c l IH]; simpl; [reflexivity|].
  intros H. apply andb_true_iff in H. destruct H as [Hc Hl].
  rewrite Hc. apply IH, Hl.
Qed.

Lemma rstrip_blank (r : string) : blank r = true -> PyStr.rstrip r = EmptyString.
Proof.
  induction r as [|c r IH]; simpl; [reflexivity|].
  intros H. apply andb_true_iff in H. destruct H as [Hc Hr].
  rewrite (IH Hr), Hc. reflexivity.
Qed.

Lemma rstrip_app_blank (s r : string) :
  blank r = true -> PyStr.rstrip (s ++ r) = PyStr.rstrip s.
Proof.
  intros Hr. induction s as [|c s IH]; simpl.
  - apply rstrip_blank, Hr.
  - rewrite IH. reflexivity.
Qed.

Lemma strip_app_blank (a r : string) :
  blank r = true -> PyStr.strip (a ++ r) = PyStr.strip a.
Proof.
  intros Hr. unfold PyStr.strip. induction a as [|c a IH]; simpl.
  - assert (Hl : PyStr.lstrip r = EmptyString).
    { clear - Hr. induction r as [|c r IH]; simpl; [reflexivity|].
      simpl in Hr. apply andb_true_iff in Hr. destruct Hr as [Hc Hr].
      rewrite Hc. apply IH, Hr. }
    rewrite Hl. reflexivity.
  - destruct (PyStr.is_space c); [exact IH|].
    change (String c (a ++ r)) with (String c a ++ r).
    apply rstrip_app_blank, Hr.
Qed.

(** Whitespace around a string does not survive [strip]. *)
Lemma strip_padded (a b : string) : padded a b -> PyStr.strip b = PyStr.strip a.
Proof.
  intros [l [r [Hl [Hr ->]]]]. unfold PyStr.strip at 1.
  rewrite (lstrip_blank l _ Hl). apply (strip_app_blank a r Hr).
Qed.

Lemma map_normal_padded (l1 l2 : list string) :
  Forall2 padded l1 l2 ->
  map (fun v => PyStr.lower (PyStr.strip v)) l2
  = map (fun v => PyStr.lower (PyStr.strip v)) l1.
Proof.
  induction 1; simpl; [reflexivity|].
  rewrite (strip_padded _ _ H). f_equal. assumption.
Qed.

Lemma Forall2_length_eq {A B : Type} (R : A -> B -> Prop) (l1 : list A) (l2 : list B) :
  Forall2 R l1 l2 -> List.length l1 = List.length l2.
Proof. induction 1; simpl; [reflexivity | f_equal; assumption]. Qed.

Lemma all_in_dict (items : list value) (d : dict) :
  Forall (fun item => exists k, item = VStr k) items ->
  all_in items (VDict d)
  = Ret (forallb (fun item => match item with
                              | VStr k => has_key k d
                              | _ => false
                              end) items).
Proof.
  induction 1 as [|item items [k ->] _ IH]; simpl; [reflexivity|].
  destruct (has_key k d); simpl; [exact IH | reflexivity].
Qed.

Section ComparisonEdges.

Variable builtin_attr : value -> string -> option value.


(** X6: whitespace around the alternatives of a pipe string is ignored:
    padding any alternative with blanks leaves the verdict unchanged. *)
Theorem alternatives_ignore_padding (rec1 rec2 : dict) (path : string)
    (data v : value) (e1 e2 : string) :
  direct_rule rec1 path -> direct_rule rec2 path ->
  get rec1 "object.value" = VStr e1 -> get rec2 "object.value" = VStr e2 ->
  PyStr.contains_char "|" e1 = true ->
  Forall2 padded (PyStr.split "|" e1) (PyStr.split "|" e2) ->
  walk builtin_attr (path_keys path) data = Ret v ->
  evaluate_object_key builtin_attr rec2 data
  = evaluate_object_key builtin_attr rec1 data.
Proof.
  intros Hd1 Hd2 He1 He2 Hp1 Hpad Hw.
  assert (Hp2 : PyStr.contains_char "|" e2 = true).
  { rewrite split_length in *. rewrite <- (Forall2_length_eq _ _ _ Hpad). exact Hp1. }
  rewrite (evaluate_resolved _ _ _ _ _ Hd1 Hw), He1.
  rewrite (evaluate_resolved _ _ _ _ _ Hd2 Hw), He2.
  unfold check_expected. rewrite Hp1, Hp2. unfold allowed_values.
  rewrite (map_normal_padded _ _ Hpad). reflexivity.
Qed.

(** X7: when the expected value is a list of strings and the path
    resolves to a mapping, the listed strings are looked up among the keys
    of the mapping: Passed when all are keys, Failed otherwise, never
    CouldNotValidate. *)
Theorem list_expected_on_mapping (recommendation : dict) (path : string)
    (data : value) (d : dict) (items : list value) :
  direct_rule recommendation path ->
  get recommendation "object.value" = VList items ->
  Forall (fun item => exists k, item = VStr k) items ->
  walk builtin_attr (path_keys path) data = Ret (VDict d) ->
  evaluate_object_key builtin_attr recommendation data
  = Ret (if forallb (fun item => match item with
                                 | VStr k => has_key k d
                                 | _ => false
                                 end) items
         then "Passed" else "Failed", VDict d).
Proof.
  intros Hd He Hs Hw.
  rewrite (evaluate_resolved _ _ _ _ _ Hd Hw), He. unfold check_expected.
  rewrite (all_in_dict _ _ Hs). reflexivity.
Qed.

End ComparisonEdges.

(** ** More on the scorer *)

Lemma filter_permutation {A : Type} (f : A -> bool) (l l' : list A) :
  Permutation l l' -> Permutation (filter f l) (filter f l').
Proof.
  induction 1; simpl.
  - constructor.
  - destruct (f x); [constructor|]; assumption.
  - destruct (f x), (f y); try apply Permutation_refl. apply perm_swap.
  - eapply Permutation_trans; eassumption.
Qed.

Lemma count_status_permutation (s : string) (rs rs' : list rule_result) :
  Permutation rs rs' -> count_status s rs = count_status s rs'.
Proof.
  intros H. unfold count_status.
  apply Permutation_length, filter_permutation, H.
Qed.

Lemma score_pillar_permutation (name : string) (rs rs' : list rule_result) :
  Permutation rs rs' -> score_pillar name rs = score_pillar name rs'.
Proof.
  intros H. unfold score_pillar.
  pose proof (filter_permutation
                (fun r => py_eq (category r) (VStr name)) _ _ H) as Hp.
  fold (in_pillar name rs) in Hp. fold (in_pillar name rs') in Hp.
  rewrite (Permutation_length Hp),
    (count_status_permutation "Passed" _ _ Hp),
    (count_status_permutation "Failed" _ _ Hp),
    (count_status_permutation "CouldNotValidate" _ _ Hp).
  reflexivity.
Qed.

(** X8: the summary does not depend on the order of the results. *)
Theorem summary_order_independent (rs rs' : list rule_result) :
  Permutation rs rs' -> calculate_summary rs = calculate_summary rs'.
Proof.
  intros H. unfold calculate_summary.
  rewrite (Permutation_length H),
    (count_status_permutation "Passed" _ _ H),
    (count_status_permutation "Failed" _ _ H),
    (count_status_permutation "CouldNotValidate" _ _ H).
  f_equal. apply map_ext. intros pl. f_equal.
  apply score_pillar_permutation, H.
Qed.

(** [r["category"]] is the name of one of the pillars. *)
Definition in_some_pillar (r : rule_result) : bool :=
  existsb (fun pl => py_eq (category r) (VStr (pillar_name pl))) PILLARS.

(** The sum of the [total] fields of the pillar entries. *)
Definition pillar_totals (s : summary) : nat :=
  fold_right (fun e acc => (pillar_total (snd e) + acc)%nat) 0%nat (pillar_scores s).

Lemma one_pillar_at_most (c : value) :
  ((if py_eq c (VStr "Reliability") then 1 else 0)
   + ((if py_eq c (VStr "Security") then 1 else 0)
      + ((if py_eq c (VStr "Cost Optimization") then 1 else 0)
         + ((if py_eq c (VStr "Operational Excellence") then 1 else 0)
            + ((if py_eq c (VStr "Performance Efficiency") then 1 else 0) + 0)))))%nat
  = (if (py_eq c (VStr "Reliability")
         || (py_eq c (VStr "Security")
             || (py_eq c (VStr "Cost Optimization")
                 || (py_eq c (VStr "Operational Excellence")
                     || (py_eq c (VStr "Performance Efficiency") || false)))))%bool
     then 1 else 0)%nat.
Proof.
  destruct c; try reflexivity. simpl py_eq.
  destruct (String.eqb_spec s "Reliability") as [->|_]; [reflexivity|].
  destruct (String.eqb_spec s "Security") as [->|_]; [reflexivity|].
  destruct (String.eqb_spec s "Cost Optimization") as [->|_]; [reflexivity|].
  destruct (String.eqb_spec s "Operational Excellence") as [->|_]; [reflexivity|].
  destruct (String.eqb_spec s "Performance Efficiency"); reflexivity.
Qed.

Lemma pillar_totals_cons (r : rule_result) (rs : list rule_result) :
  pillar_totals (calculate_summary (r :: rs))
  = ((if in_some_pillar r then 1 else 0) + pillar_totals (calculate_summary rs))%nat.
Proof.
  unfold pillar_totals, calculate_summary, score_pillar, in_pillar, in_some_pillar.
  cbn [pillar_scores map PILLARS fold_right snd pillar_total pillar_name filter existsb].
  pose proof (one_pillar_at_most (category r)) as H.
  destruct (py_eq (category r) (VStr "Reliability"));
    destruct (py_eq (category r) (VStr "Security"));
    destruct (py_eq (category r) (VStr "Cost Optimization"));
    destruct (py_eq (category r) (VStr "Operational Excellence"));
    destruct (py_eq (category r) (VStr "Performance Efficiency"));
    cbn [List.length orb] in *; lia.
Qed.

Lemma filter_length_le {A : Type} (f : A -> bool) (l : list A) :
  (List.length (filter f l) <= List.length l)%nat.
Proof.
  induction l as [|x l IH]; simpl; [lia|]. destruct (f x); simpl; lia.
Qed.

(** X9: the pillar totals add up to the number of results whose category
    is the name of a pillar, letter for letter; a result with any other
    category counts in [total_checks] and in no pillar. *)
Theorem pillar_totals_cover (rs : list rule_result) :
  pillar_totals (calculate_summary rs) = List.length (filter in_some_pillar rs)
  /\ (pillar_totals (calculate_summary rs) <= total_checks (calculate_summary rs))%nat
  /\ (pillar_totals (calculate_summary rs) = total_checks (calculate_summary rs)
      <-> Forall (fun r => in_some_pillar r = true) rs).
Proof.
  assert (H : pillar_totals (calculate_summary rs)
              = List.length (filter in_some_pillar rs)).
  { induction rs as [|r rs IH]; [reflexivity|].
    rewrite pillar_totals_cons, IH. simpl filter.
    destruct (in_some_pillar r); reflexivity. }
  split; [exact H|]. rewrite H. simpl total_checks. clear H.
  split; [apply filter_length_le|].
  induction rs as [|r rs IH]; simpl.
  - split; [constructor | reflexivity].
  - pose proof (filter_length_le in_some_pillar rs) as Hle.
    destruct (in_some_pillar r) eqn:E; simpl.
    + split.
      * intros Hl. constructor; [exact E|]. apply IH. lia.
      * intros Hf. inversion Hf; subst. f_equal. apply IH. assumption.
    + split; [intros Hl; lia|].
      intros Hf. inversion Hf; subst. congruence.
Qed.

(** ** More on the run *)

Lemma subseq_length {A : Type} (l l' : list A) :
  subseq l l' -> (List.length l <= List.length l')%nat.
Proof. induction 1; simpl; lia. Qed.

(** Rules with pairwise different names, none of them seen, are all kept. *)
Lemma select_fixed (rules : list dict) (seen : list value) :
  names_hashable rules ->
  ForallOrdPairs (fun a b => py_eq (rule_name a) (rule_name b) = false) rules ->
  Forall (fun r => in_seen (rule_name r) seen = false) rules ->
  select rules seen = rules.
Proof.
  intros Hh Hd. revert seen.
  induction Hd as [|r rules Hr Hd IH]; intros seen Hs; [reflexivity|].
  inversion Hh as [|? ? Hhr Hh']; subst.
  inversion Hs as [|? ? Hsr Hs']; subst.
  simpl. rewrite Hsr. f_equal. apply IH; [exact Hh'|].
  rewrite Forall_forall in *. intros k Hk. simpl.
  rewrite (py_eq_sym _ _ (Hh' k Hk) Hhr), (Hr k Hk). apply Hs', Hk.
Qed.

Lemma select_hashable (rules : list dict) (seen : list value) :
  names_hashable rules -> names_hashable (select rules seen).
Proof.
  unfold names_hashable. rewrite !Forall_forall. intros H k Hk.
  apply H. exact (subseq_In _ _ _ (select_subseq rules seen) Hk).
Qed.

(** Selecting twice selects nothing more. *)
Lemma select_idempotent (rules : list dict) (seen : list value) :
  names_hashable rules ->
  select (select rules seen) seen = select rules seen.
Proof.
  intros Hh. apply select_fixed.
  - apply select_hashable, Hh.
  - apply select_distinct, Hh.
  - apply Forall_forall. intros k Hk. exact (select_not_seen _ _ _ Hk).
Qed.

Section RunEdges.

Variable builtin_attr : value -> string -> option value.
Variable get_cluster : string -> string -> string -> res dict.
Variable run_resource_graph_query : string -> list string -> res (list dict).
Variable kql_file : string -> option (res string).
Variable new_scan_id : string.
Variable started_iso : string.
Variable completed_iso : string.

Let run (f : catalog_file) :=
  run_assessment builtin_attr get_cluster run_resource_graph_query f kql_file
                 new_scan_id started_iso completed_iso.

Lemma run_results_select (subscription group cluster : string) (info : dict)
    (rules : list dict) :
  get_cluster subscription group cluster = Ret info ->
  names_hashable rules ->
  results (run (Parsed (VList (map VDict rules))) subscription group cluster)
  = map (fun r => evaluate_recommendation builtin_attr run_resource_graph_query
                    kql_file r (get_default info "_raw" (VDict [])) info subscription)
        (select rules []).
Proof.
  intros Hf Hh. unfold run, run_assessment, assess. rewrite Hf.
  cbn [bind load_recommendations py_iter].
  rewrite (run_checks_select _ _ _ rules [] [] _ _ _ Hh). reflexivity.
Qed.

(** X10: with the configuration fetched and no catalog file on disk, the
    run is completed with no result, and its summary has score 0, all
    counts 0 and the five pillars with score 0 and counts 0. *)
Theorem missing_catalog_run (subscription group cluster : string) (info : dict) :
  get_cluster subscription group cluster = Ret info ->
  let r := run Missing subscription group cluster in
  let zero := {| score := 0; pillar_passed := 0; pillar_failed := 0;
                 pillar_not_validated := 0; pillar_total := 0 |} in
  run_status r = "completed" /\ results r = [] /\ error_message r = None
  /\ run_summary r
     = Some {| overall_score := 0; total_checks := 0; passed := 0; failed := 0;
               not_validated := 0;
               pillar_scores := map (fun pl => (pillar_name pl, zero)) PILLARS |}.
Proof.
  intros Hf r zero. subst r. unfold run, run_assessment, assess. rewrite Hf.
  cbn [bind load_recommendations py_iter run_checks].
  repeat split.
Qed.

(** X11: the results of a run are those of the run on the catalog with
    the later rules of each name removed. *)
Theorem run_on_selected_catalog (subscription group cluster : string) (info : dict)
    (rules : list dict) :
  get_cluster subscription group cluster = Ret info ->
  names_hashable rules ->
  results (run (Parsed (VList (map VDict (select rules [])))) subscription group cluster)
  = results (run (Parsed (VList (map VDict rules))) subscription group cluster).
Proof.
  intros Hf Hh.
  rewrite (run_results_select _ _ _ _ _ Hf Hh).
  rewrite (run_results_select _ _ _ _ _ Hf (select_hashable _ _ Hh)).
  rewrite (select_idempotent _ _ Hh). reflexivity.
Qed.

(** X12: a run never has more results than the catalog has rules, and it
    has as many exactly when it keeps every rule, which it does when the
    names are pairwise different. *)
Theorem results_bounded_by_catalog (subscription group cluster : string)
    (info : dict) (rules : list dict) :
  get_cluster subscription group cluster = Ret info ->
  names_hashable rules ->
  let r := run (Parsed (VList (map VDict rules))) subscription group cluster in
  (List.length (results r) <= List.length rules)%nat
  /\ (ForallOrdPairs (fun a b => py_eq (rule_name a) (rule_name b) = false) rules ->
      List.length (results r) = List.length rules)
  /\ (forall s, run_summary r = Some s -> total_checks s = List.length (results r)).
Proof.
  intros Hf Hh r. subst r. split; [|split].
  - rewrite (run_results_select _ _ _ _ _ Hf Hh), length_map.
    apply subseq_length, select_subseq.
  - intros Hd. rewrite (run_results_select _ _ _ _ _ Hf Hh), length_map.
    rewrite (select_fixed rules [] Hh Hd); [reflexivity|].
    apply Forall_forall. intros k _. reflexivity.
  - intros s. unfold run, run_assessment.
    destruct (assess _ _ _ _ _ _ _ _) as [[i rs]|e]; simpl; [|discriminate].
    intros [= <-]. reflexivity.
Qed.

End RunEdges.

(** * The Azure client: resource identifiers ([azure_client.py]) *)

(** The loop of [_extract_resource_group] and [_extract_subscription_id]:
    the part after the first part that is the marker, letter case aside,
    and is not the last one; the empty string when there is none. *)
Fixpoint part_after (marker : string) (parts : list string) : string :=
  match parts with
  | [] => EmptyString
  | part :: rest =>
      if String.eqb (PyStr.lower part) marker then
        match rest with
        | next :: _ => next
        | [] => part_after marker rest
        end
      else part_after marker rest
  end.

(** [_extract_resource_group] *)
Definition extract_resource_group (resource_id : string) : string :=
  part_after "resourcegroups" (PyStr.split "/" resource_id).

(** [_extract_subscription_id] *)
Definition extract_subscription_id (resource_id : string) : string :=
  part_after "subscriptions" (PyStr.split "/" resource_id).

Example extract_from_cluster_id :
  let id := "/subscriptions/0000-11/resourcegroups/rg-prod/providers/Microsoft.ContainerService/managedClusters/aks1" in
  (extract_subscription_id id, extract_resource_group id) = ("0000-11", "rg-prod").
Proof. reflexivity. Qed.

Lemma split_no_sep (sep : ascii) (s : string) :
  PyStr.contains_char sep s = false -> PyStr.split sep s = [s].
Proof.
  induction s as [|c s IH]; simpl; [reflexivity|].
  destruct (Ascii.eqb c sep); simpl; [discriminate|].
  intros H. rewrite (IH H). reflexivity.
Qed.

Lemma split_app_sep (sep : ascii) (a b : string) :
  PyStr.contains_char sep a = false ->
  PyStr.split sep (a ++ String sep b) = a :: PyStr.split sep b.
Proof.
  induction a as [|c a IH]; simpl.
  - intros _. rewrite Ascii.eqb_refl. reflexivity.
  - destruct (Ascii.eqb c sep); simpl; [discriminate|].
    intros H. rewrite (IH H). reflexivity.
Qed.

Lemma split_parts_no_sep (sep : ascii) (s : string) :
  Forall (fun p => PyStr.contains_char sep p = false) (PyStr.split sep s).
Proof.
  induction s as [|c s IH]; simpl.
  - constructor; [reflexivity | constructor].
  - destruct (Ascii.eqb c sep) eqn:E.
    + constructor; [reflexivity | exact IH].
    + pose proof (split_not_nil sep s) as Hn.
      destruct (PyStr.split sep s) as [|h t]; [congruence|].
      inversion IH; subst. constructor; [|assumption].
      simpl. rewrite E. assumption.
Qed.

Lemma part_after_no_sep (sep : ascii) (marker : string) (parts : list string) :
  Forall (fun p => PyStr.contains_char sep p = false) parts ->
  PyStr.contains_char sep (part_after marker parts) = false.
Proof.
  induction 1 as [|p parts Hp Hps IH]; simpl; [reflexivity|].
  destruct (String.eqb (PyStr.lower p) marker); [|exact IH].
  destruct Hps; [reflexivity | assumption].
Qed.

Lemma part_after_none (marker : string) (parts : list string) :
  Forall (fun p => PyStr.lower p <> marker) parts ->
  part_after marker parts = EmptyString.
Proof.
  induction 1 as [|p parts Hp _ IH]; simpl; [reflexivity|].
  destruct (String.eqb_spec (PyStr.lower p) marker); [congruence | exact IH].
Qed.

Lemma lower_char_slash (c : ascii) :
  Ascii.eqb (PyStr.lower_char c) "/" = Ascii.eqb c "/".
Proof. each_char c. Qed.

Lemma lower_slash (s : string) :
  PyStr.contains_char "/" (PyStr.lower s) = PyStr.contains_char "/" s.
Proof.
  induction s as [|c s IH]; simpl; [reflexivity|].
  rewrite lower_char_slash, IH. reflexivity.
Qed.

Lemma append_empty_r (s : string) : s ++ EmptyString = s.
Proof. induction s as [|c s IH]; simpl; [reflexivity | f_equal; exact IH]. Qed.

(** The head of the parts of [g ++ rest] when [rest] is empty or starts a
    new part. *)
Lemma split_head (g rest : string) :
  PyStr.contains_char "/" g = false ->
  rest = EmptyString \/ (exists tail, rest = String "/" tail) ->
  exists others, PyStr.split "/" (g ++ rest) = g :: others.
Proof.
  intros Hg [-> | [tail ->]].
  - exists []. rewrite append_empty_r. apply split_no_sep, Hg.
  - eexists. apply split_app_sep, Hg.
Qed.

(** X13: from an identifier of the form
    /subscriptions/S/RG/G..., where RG is the resource group marker in any
    letter case, S and G have no slash and S is not itself that marker, the
    two functions give back S and G; what they return never has a slash;
    and they return the empty string when no part is the marker. *)
Theorem extract_ids (sub marker group rest : string) :
  PyStr.contains_char "/" sub = false ->
  PyStr.contains_char "/" group = false ->
  PyStr.lower sub <> "resourcegroups" ->
  PyStr.lower marker = "resourcegroups" ->
  rest = EmptyString \/ (exists tail, rest = String "/" tail) ->
  let id := "/subscriptions/" ++ sub ++ "/" ++ marker ++ "/" ++ group ++ rest in
  extract_subscription_id id = sub
  /\ extract_resource_group id = group
  /\ (forall any, PyStr.contains_char "/" (extract_resource_group any) = false
                  /\ PyStr.contains_char "/" (extract_subscription_id any) = false)
  /\ (forall any,
        Forall (fun p => PyStr.lower p <> "resourcegroups") (PyStr.split "/" any) ->
        extract_resource_group any = EmptyString).
Proof.
  intros Hs Hg Hns Hm Hrest id.
  assert (Hmk : PyStr.contains_char "/" marker = false).
  { rewrite <- lower_slash, Hm. reflexivity. }
  destruct (split_head group rest Hg Hrest) as [others Ho].
  assert (Hid : PyStr.split "/" id
                = EmptyString :: "subscriptions" :: sub :: marker :: group :: others).
  { subst id.
    change ("/subscriptions/" ++ sub ++ "/" ++ marker ++ "/" ++ group ++ rest)
      with (EmptyString ++ String "/"
              ("subscriptions" ++ String "/"
                 (sub ++ String "/" (marker ++ String "/" (group ++ rest))))).
    rewrite (split_app_sep "/" EmptyString) by reflexivity.
    rewrite (split_app_sep "/" "subscriptions") by reflexivity.
    rewrite (split_app_sep "/" sub) by exact Hs.
    rewrite (split_app_sep "/" marker) by exact Hmk.
    rewrite Ho. reflexivity. }
  split; [|split; [|split]].
  - unfold extract_subscription_id. rewrite Hid. reflexivity.
  - unfold extract_resource_group. rewrite Hid. simpl.
    destruct (String.eqb_spec (PyStr.lower sub) "resourcegroups"); [congruence|].
    rewrite Hm. reflexivity.
  - intros any. split; apply part_after_no_sep, split_parts_no_sep.
  - intros any. apply part_after_none.
Qed.

Lemma extract_ids_witness :
  extract_subscription_id
    "/subscriptions/0000-11/resourceGroups/rg-prod/providers/Microsoft.ContainerService/managedClusters/aks1"
  = "0000-11"
  /\ extract_resource_group
       "/subscriptions/0000-11/resourceGroups/rg-prod/providers/Microsoft.ContainerService/managedClusters/aks1"
     = "rg-prod".
Proof.
  pose proof (extract_ids "0000-11" "resourceGroups" "rg-prod"
                "/providers/Microsoft.ContainerService/managedClusters/aks1"
                eq_refl eq_refl ltac:(discriminate) eq_refl
                (or_intror (ex_intro _ _ eq_refl))) as H.
  destruct H as [H1 [H2 _]]. split; [exact H1 | exact H2].
Defined.

(** * Catalog queries ([recommendations.py], [api/recommendations.py]) *)

(** [rec.get("category", "").lower() == name.lower()]: [get] needs a
    mapping and [lower] a string. *)
Definition category_matches (rec : value) (name : string) : res bool :=
  match rec with
  | VDict d =>
      match get_default d "category" (VStr EmptyString) with
      | VStr c => Ret (String.eqb (PyStr.lower c) (PyStr.lower name))
      | _ => Raise (AttributeError "object has no attribute 'lower'")
      end
  | _ => Raise (AttributeError "object has no attribute 'get'")
  end.

(** [[r for r in recommendations if ...]] of
    [get_recommendations_by_category]. *)
Fixpoint filter_category (recs : list value) (category : string)
  : res (list value) :=
  match recs with
  | [] => Ret []
  | rec :: rest =>
      keep <- category_matches rec category ;;
      tail <- filter_category rest category ;;
      Ret (if keep then rec :: tail else tail)
  end.

(** [get_recommendations_by_category] *)
Definition get_recommendations_by_category (f : catalog_file) (category : string)
  : res (list value) :=
  recommendations <- load_recommendations f ;;
  recs <- py_iter recommendations ;;
  filter_category recs category.

(** The loop of [get_recommendation_by_id]. *)
Fixpoint find_by_id (recs : list value) (recommendation_id : string)
  : res (option value) :=
  match recs with
  | [] => Ret None
  | VDict d :: rest =>
      if py_eq (get d "id") (VStr recommendation_id) then Ret (Some (VDict d))
      else find_by_id rest recommendation_id
  | _ :: _ => Raise (AttributeError "object has no attribute 'get'")
  end.

(** [get_recommendation_by_id] *)
Definition get_recommendation_by_id (f : catalog_file) (recommendation_id : string)
  : res (option value) :=
  recommendations <- load_recommendations f ;;
  recs <- py_iter recommendations ;;
  find_by_id recs recommendation_id.

(** [len(v)] *)
Definition py_len (v : value) : res nat :=
  match v with
  | VList l => Ret (List.length l)
  | VDict d => Ret (List.length d)
  | VStr s => Ret (String.length s)
  | _ => Raise (TypeError "object has no len()")
  end.

(** [sum(1 for rec in recommendations if ...)] of
    [get_recommendation_stats]. *)
Fixpoint count_category (recs : list value) (name : string) : res nat :=
  match recs with
  | [] => Ret 0%nat
  | rec :: rest =>
      hit <- category_matches rec name ;;
      n <- count_category rest name ;;
      Ret (if hit then S n else n)
  end.

(** The loop over [PILLARS] of [get_recommendation_stats]. *)
Fixpoint count_pillars (pillars : list pillar) (recs : list value)
  : res (list (string * nat)) :=
  match pillars with
  | [] => Ret []
  | pl :: rest =>
      n <- count_category recs (pillar_name pl) ;;
      tail <- count_pillars rest recs ;;
      Ret ((pillar_name pl, n) :: tail)
  end.

(** The loop over the rules of [get_recommendation_stats]: the counters
    [object_key] and [kql_query]. *)
Fixpoint count_check_types (recs : list value) (object_key kql_query : nat)
  : res (nat * nat) :=
  match recs with
  | [] => Ret (object_key, kql_query)
  | rec :: rest =>
      is_query <- py_in (VStr "query_file") rec ;;
      if is_query then count_check_types rest object_key (S kql_query)
      else count_check_types rest (S object_key) kql_query
  end.

(** The dictionary [get_recommendation_stats] returns. *)
Record stats : Type := {
  stats_total : nat;
  by_pillar : list (string * nat);
  by_object_key : nat;
  by_kql_query : nat
}.

(** [get_recommendation_stats] *)
Definition get_recommendation_stats (f : catalog_file) : res stats :=
  recommendations <- load_recommendations f ;;
  total <- py_len recommendations ;;
  recs <- py_iter recommendations ;;
  pillars <- count_pillars PILLARS recs ;;
  types <- count_check_types recs 0%nat 0%nat ;;
  Ret {| stats_total := total; by_pillar := pillars;
         by_object_key := fst types; by_kql_query := snd types |}.

Definition sample_catalog : value :=
  VList [VDict [("id", VStr "zones"); ("recommendation_name", VStr "Use zones");
                ("category", VStr "Reliability"); ("query_file", VStr "zones.kql")];
         VDict [("recommendation_name", VStr "Enable RBAC");
                ("category", VStr "security");
                ("object_key", VStr "enable_rbac"); ("object.value", VStr "true")];
         VDict [("id", VStr "tier"); ("recommendation_name", VStr "Paid tier");
                ("category", VStr "Reliability");
                ("object_key", VStr "sku.tier"); ("object.value", VStr "standard|premium")]].

Example stats_of_sample_catalog :
  get_recommendation_stats (Parsed sample_catalog)
  = Ret {| stats_total := 3;
           by_pillar := [("Reliability", 2%nat); ("Security", 1%nat);
                         ("Cost Optimization", 0%nat);
                         ("Operational Excellence", 0%nat);
                         ("Performance Efficiency", 0%nat)];
           by_object_key := 2; by_kql_query := 1 |}.
Proof. reflexivity. Qed.

Example stats_null_category :
  exists e,
    get_recommendation_stats
      (Parsed (VList [VDict [("recommendation_name", VStr "r"); ("category", VNone)]]))
    = Raise e.
Proof. eexists. reflexivity. Qed.

(** The entries of the catalog, as a loop over it visits them. *)
Definition catalog_entries (f : catalog_file) : res (list value) :=
  recommendations <- load_recommendations f ;;
  py_iter recommendations.



Lemma filter_category_spec (recs l : list value) (c : string) :
  filter_category recs c = Ret l ->
  subseq l recs
  /\ Forall (fun r => category_matches r c = Ret true) l
  /\ (forall r, In r recs -> category_matches r c = Ret true -> In r l).
Proof.
  revert l. induction recs as [|r recs IH]; simpl; intros l.
  - intros [= <-]. split; [constructor|]. split; [constructor | tauto].
  - destruct (category_matches r c) as [keep|e] eqn:E; simpl; [|discriminate].
    destruct (filter_category recs c) as [tail|e]; simpl; [|discriminate].
    destruct (IH tail eq_refl) as [Hs [Hf Hc]].
    destruct keep; intros [= <-].
    + split; [constructor; exact Hs|]. split; [constructor; assumption|].
      intros x [<-|Hin] Hx; [left; reflexivity | right; apply Hc; assumption].
    + split; [constructor; exact Hs|]. split; [exact Hf|].
      intros x [<-|Hin] Hx; [congruence | apply Hc; assumption].
Qed.


Lemma py_eq_str (v : value) (s : string) :
  py_eq v (VStr s) = true <-> v = VStr s.
Proof.
  destruct v; simpl; try (split; discriminate).
  rewrite String.eqb_eq. split; [intros ->; reflexivity | intros [= ->]; reflexivity].
Qed.

(** [p] has an identifier other than [id]. *)
Definition other_id (recommendation_id : string) (p : value) : Prop :=
  exists d, p = VDict d /\ get d "id" <> VStr recommendation_id.

Lemma find_by_id_some (recs : list value) (rid : string) (r : value) :
  find_by_id recs rid = Ret (Some r) ->
  exists pre post d,
    recs = (pre ++ r :: post)%list /\ r = VDict d /\ get d "id" = VStr rid
    /\ Forall (other_id rid) pre.
Proof.
  induction recs as [|x recs IH]; simpl; [discriminate|].
  destruct x; try discriminate.
  destruct (py_eq (get d "id") (VStr rid)) eqn:E.
  - intros [= <-]. exists [], recs, d. apply py_eq_str in E.
    split; [reflexivity|]. split; [reflexivity|]. split; [exact E | constructor].
  - intros H. destruct (IH H) as [pre [post [d' [Hrecs [Hr [Hid Hpre]]]]]].
    exists (VDict d :: pre), post, d'. rewrite Hrecs.
    split; [reflexivity|]. split; [exact Hr|]. split; [exact Hid|].
    constructor; [|exact Hpre]. exists d. split; [reflexivity|].
    intros Hc. apply py_eq_str in Hc. congruence.
Qed.

Lemma find_by_id_none (recs : list value) (rid : string) :
  find_by_id recs rid = Ret None <-> Forall (other_id rid) recs.
Proof.
  induction recs as [|x recs IH]; simpl.
  - split; [constructor | reflexivity].
  - destruct x; try (split; [discriminate | inversion 1 as [|? ? [d' [Hd _]]]; discriminate]).
    destruct (py_eq (get d "id") (VStr rid)) eqn:E.
    + split; [discriminate|]. inversion 1 as [|? ? Ho _]; subst.
      destruct Ho as [d' [Hd Hn]]. injection Hd as Hd. subst d'.
      apply py_eq_str in E. congruence.
    + rewrite IH. split.
      * intros H. constructor; [|exact H]. exists d. split; [reflexivity|].
        intros Hc. apply py_eq_str in Hc. congruence.
      * inversion 1; assumption.
Qed.

(** X15: [get_recommendation_by_id] returns the first entry of the
    catalog whose id field is the given string, and nothing exactly when
    every entry is a mapping with another id field (or none); an entry
    with no id field is never found, whatever its name. *)
Theorem by_id_spec (recs : list value) (rid : string) :
  (forall r, get_recommendation_by_id (Parsed (VList recs)) rid = Ret (Some r) ->
     exists pre post d,
       recs = (pre ++ r :: post)%list /\ r = VDict d /\ get d "id" = VStr rid
       /\ Forall (other_id rid) pre)
  /\ (get_recommendation_by_id (Parsed (VList recs)) rid = Ret None
      <-> Forall (other_id rid) recs)
  /\ (forall r d, get_recommendation_by_id (Parsed (VList recs)) rid = Ret (Some r) ->
        r = VDict d -> lookup "id" d <> None).
Proof.
  unfold get_recommendation_by_id. cbn [bind load_recommendations py_iter].
  split; [|split].
  - intros r. apply find_by_id_some.
  - apply find_by_id_none.
  - intros r d H ->. destruct (find_by_id_some _ _ _ H) as [_ [_ [d' [_ [[= <-] [Hid _]]]]]].
    unfold get, get_default in Hid. destruct (lookup "id" d); discriminate.
Qed.

Section CategoryCase.

Variable builtin_attr : value -> string -> option value.
Variable run_resource_graph_query : string -> list string -> res (list dict).
Variable kql_file : string -> option (res string).

(** X16: a rule whose category is a pillar name in another letter case is
    listed under that pillar by [get_recommendations_by_category], while
    its result counts in no pillar of the summary, which compares
    categories letter for letter. *)
Theorem category_case_mismatch (d : dict) (c : string) (pl : pillar) :
  In pl PILLARS ->
  lookup "category" d = Some (VStr c) ->
  PyStr.lower c = PyStr.lower (pillar_name pl) ->
  c <> pillar_name pl ->
  (forall recs l,
     In (VDict d) recs ->
     get_recommendations_by_category (Parsed (VList recs)) (pillar_name pl) = Ret l ->
     In (VDict d) l)
  /\ (forall data info subscription,
        in_some_pillar
          (evaluate_recommendation builtin_attr run_resource_graph_query kql_file
             d data info subscription) = false).
Proof.
  intros Hin Hc Hl Hne. split.
  - intros recs l Hd Hg.
    unfold get_recommendations_by_category in Hg.
    cbn [bind load_recommendations py_iter] in Hg.
    destruct (filter_category_spec _ _ _ Hg) as [_ [_ Hcov]].
    apply Hcov; [exact Hd|].
    unfold category_matches, get_default. rewrite Hc, Hl, String.eqb_refl.
    reflexivity.
  - intros data info subscription. unfold in_some_pillar, evaluate_recommendation.
    cbn [category]. unfold get_default. rewrite Hc.
    simpl in Hin.
    destruct Hin as [<-|[<-|[<-|[<-|[<-|[]]]]]]; cbn [pillar_name] in *;
      cbn [existsb PILLARS pillar_name py_eq];
      repeat match goal with
             | |- context [String.eqb c ?n] =>
                 destruct (String.eqb_spec c n) as [E|_];
                 [first [congruence | (rewrite E in Hl; vm_compute in Hl; discriminate)]|]
             end; reflexivity.
Qed.

End CategoryCase.

Lemma count_check_types_sum (recs : list value) (a b a' b' : nat) :
  count_check_types recs a b = Ret (a', b') ->
  (a' + b' = a + b + List.length recs)%nat.
Proof.
  revert a b. induction recs as [|r recs IH]; simpl; intros a b.
  - intros [= <- <-]. lia.
  - destruct (py_in (VStr "query_file") r) as [[|]|e]; simpl; [| |discriminate];
      intros H; apply IH in H; lia.
Qed.

Lemma list_ascii_length (s : string) :
  List.length (list_ascii_of_string s) = String.length s.
Proof. induction s as [|c s IH]; simpl; [reflexivity | f_equal; exact IH]. Qed.

Lemma py_len_iter (doc : value) (n : nat) (recs : list value) :
  py_len doc = Ret n -> py_iter doc = Ret recs -> List.length recs = n.
Proof.
  destruct doc; simpl; try discriminate; intros [= <-] [= <-].
  - rewrite length_map. apply list_ascii_length.
  - reflexivity.
  - apply length_map.
Qed.

Lemma count_category_filter (recs : list value) (name : string) (n : nat) :
  count_category recs name = Ret n ->
  exists l, filter_category recs name = Ret l /\ List.length l = n
            /\ (n <= List.length recs)%nat.
Proof.
  revert n. induction recs as [|r recs IH]; simpl; intros n.
  - intros [= <-]. exists []. repeat split. lia.
  - destruct (category_matches r name) as [hit|e]; simpl; [|discriminate].
    destruct (count_category recs name) as [m|e]; simpl; [|discriminate].
    destruct (IH m eq_refl) as [l [-> [Hl Hle]]]. simpl.
    destruct hit; intros [= <-]; eexists; (split; [reflexivity|]); simpl; split; lia.
Qed.

Lemma count_pillars_spec (pillars : list pillar) (recs : list value)
    (l : list (string * nat)) :
  count_pillars pillars recs = Ret l ->
  map fst l = map pillar_name pillars
  /\ Forall (fun e => count_category recs (fst e) = Ret (snd e)) l.
Proof.
  revert l. induction pillars as [|pl pillars IH]; simpl; intros l.
  - intros [= <-]. split; [reflexivity | constructor].
  - destruct (count_category recs (pillar_name pl)) as [n|e] eqn:E; simpl;
      [|discriminate].
    destruct (count_pillars pillars recs) as [tail|e]; simpl; [|discriminate].
    destruct (IH tail eq_refl) as [Hm Hf]. intros [= <-]. simpl.
    split; [f_equal; exact Hm | constructor; [exact E | exact Hf]].
Qed.

(** X17: when [get_recommendation_stats] returns, the two check type
    counters add up to the total, there is one pillar entry per pillar in
    the order of PILLARS, no pillar count exceeds the total, and each
    pillar count is the number of rules [get_recommendations_by_category]
    returns for that pillar. *)
Theorem stats_invariants (f : catalog_file) (s : stats) :
  get_recommendation_stats f = Ret s ->
  (by_object_key s + by_kql_query s = stats_total s)%nat
  /\ map fst (by_pillar s) = map pillar_name PILLARS
  /\ Forall (fun e => (snd e <= stats_total s)%nat) (by_pillar s)
  /\ Forall (fun e => exists l,
                 get_recommendations_by_category f (fst e) = Ret l
                 /\ List.length l = snd e) (by_pillar s).
Proof.
  unfold get_recommendation_stats, get_recommendations_by_category.
  destruct (load_recommendations f) as [doc|e]; cbn [bind]; [|discriminate].
  destruct (py_len doc) as [n|e] eqn:Hn; cbn [bind]; [|discriminate].
  destruct (py_iter doc) as [recs|e] eqn:Hi; cbn [bind]; [|discriminate].
  destruct (count_pillars PILLARS recs) as [pillars|e] eqn:Hp; [|discriminate].
  cbn [bind].
  destruct (count_check_types recs 0 0) as [[a b]|e] eqn:Ht; [|discriminate].
  cbn [bind]. intros [= <-]. cbn [by_object_key by_kql_query stats_total by_pillar fst snd].
  pose proof (py_len_iter _ _ _ Hn Hi) as Hlen.
  pose proof (count_check_types_sum _ _ _ _ _ Ht) as Hsum.
  destruct (count_pillars_spec _ _ _ Hp) as [Hm Hf].
  split; [lia|]. split; [exact Hm|]. split.
  - rewrite Forall_forall in *. intros e He.
    destruct (count_category_filter _ _ _ (Hf e He)) as [l [_ [_ Hle]]]. lia.
  - rewrite Forall_forall in *. intros e He.
    destruct (count_category_filter _ _ _ (Hf e He)) as [l [Hl [Hll _]]].
    exists l. split; assumption.
Qed.

Lemma stats_invariants_witness :
  exists s,
    get_recommendation_stats (Parsed sample_catalog) = Ret s
    /\ (by_object_key s + by_kql_query s = stats_total s)%nat
    /\ map fst (by_pillar s) = map pillar_name PILLARS.
Proof.
  eexists. split; [exact stats_of_sample_catalog|].
  pose proof (stats_invariants (Parsed sample_catalog) _ stats_of_sample_catalog) as H.
  destruct H as [H1 [H2 _]]. split; [exact H1 | exact H2].
Defined.

(** * Storing and showing scans ([api/scans.py]) *)

(** The answer of an endpoint: the response model, or the [HTTPException]
    it raises. *)
Inductive http (A : Type) : Type :=
| Ok (response : A)
| HTTPException (status_code : Z) (detail : string).

Arguments Ok {A} response.
Arguments HTTPException {A} status_code detail.

(** The arguments of [ScanResponse(...)]. *)
Record scan_response : Type := {
  resp_scan_id : string;
  resp_subscription_id : string;
  resp_resource_group : string;
  resp_cluster_name : string;
  resp_cluster_id : value;
  resp_status : string;
  resp_started_at : string;
  resp_completed_at : option string;
  resp_error_message : option string;
  resp_summary : option summary;
  resp_results : list rule_result
}.

Section Scans.

(** [datetime] and [datetime.fromisoformat]. *)
Variable datetime : Type.
Variable fromisoformat : string -> res datetime.

(** A row of the table [scans] ([models/scan.py]). *)
Record scan_row : Type := {
  row_id : string;
  row_subscription_id : string;
  row_resource_group : string;
  row_cluster_name : string;
  row_cluster_id : value;
  row_status : string;
  row_started_at : datetime;
  row_completed_at : option datetime;
  row_error_message : option string;
  row_total_checks : nat;
  row_passed : nat;
  row_failed : nat;
  row_not_validated : nat;
  row_pillar_scores : option (list (string * pillar_score))
}.

(** An object handed to [db.add]: a [Scan], or a [ScanResult] with the
    id of its scan. *)
Inductive db_object : Type :=
| ScanObject (row : scan_row)
| ScanResultObject (scan : string) (result : rule_result).

(** [AzureClientService()], [db.commit()] on the objects added, and the
    validation the response model runs on its arguments. *)
Variable client_error : option exc.
Variable commit : list db_object -> res unit.
Variable validate : scan_response -> res scan_response.

Variable builtin_attr : value -> string -> option value.
Variable get_cluster : string -> string -> string -> res dict.
Variable run_resource_graph_query : string -> list string -> res (list dict).
Variable recommendations_file : catalog_file.
Variable kql_file : string -> option (res string).
Variable new_scan_id : string.
Variable started_iso : string.
Variable completed_iso : string.

Let run := run_assessment builtin_attr get_cluster run_resource_graph_query
             recommendations_file kql_file new_scan_id started_iso completed_iso.

(** [result.get("summary", {}).get(field, default)]: the key is always
    there, with [None] for a failed run, and [None] has no [get]. *)
Definition summary_field {A : Type} (result : assessment_run)
    (field : summary -> A) : res A :=
  match run_summary result with
  | Some s => Ret (field s)
  | None => Raise (AttributeError "'NoneType' object has no attribute 'get'")
  end.

(** The call [Scan(...)] of [start_scan], its arguments evaluated in the
    order written. *)
Definition scan_of_result (result : assessment_run) : res scan_row :=
  started <- fromisoformat (started_at result) ;;
  completed <- (if PyStr.is_empty (completed_at result) then Ret None
                else d <- fromisoformat (completed_at result) ;; Ret (Some d)) ;;
  total <- summary_field result total_checks ;;
  p <- summary_field result passed ;;
  f <- summary_field result failed ;;
  nv <- summary_field result not_validated ;;
  scores <- summary_field result pillar_scores ;;
  Ret {| row_id := scan_id result;
         row_subscription_id := subscription_id result;
         row_resource_group := resource_group result;
         row_cluster_name := cluster_name result;
         row_cluster_id := cluster_id result;
         row_status := run_status result;
         row_started_at := started;
         row_completed_at := completed;
         row_error_message := error_message result;
         row_total_checks := total;
         row_passed := p;
         row_failed := f;
         row_not_validated := nv;
         row_pillar_scores := Some scores |}.

(** The arguments of the [ScanResponse(...)] that [start_scan] returns. *)
Definition response_of_result (result : assessment_run) : scan_response :=
  {| resp_scan_id := scan_id result;
     resp_subscription_id := subscription_id result;
     resp_resource_group := resource_group result;
     resp_cluster_name := cluster_name result;
     resp_cluster_id := cluster_id result;
     resp_status := run_status result;
     resp_started_at := started_at result;
     resp_completed_at := Some (completed_at result);
     resp_error_message := error_message result;
     resp_summary := run_summary result;
     resp_results := results result |}.

(** The [try] block of [start_scan]: the objects committed and the
    response, or the exception together with the objects committed before
    it was raised. *)
Definition start_scan_try (subscription group cluster : string)
  : list db_object * res scan_response :=
  match client_error with
  | Some e => ([], Raise e)
  | None =>
      let result := run subscription group cluster in
      match scan_of_result result with
      | Raise e => ([], Raise e)
      | Ret scan =>
          let added :=
            (ScanObject scan
             :: map (ScanResultObject (scan_id result)) (results result))%list in
          match commit added with
          | Raise e => ([], Raise e)
          | Ret _ => (added, validate (response_of_result result))
          end
      end
  end.

(** [start_scan]: the objects it has committed, and its answer. *)
Definition start_scan (subscription group cluster : string)
  : list db_object * http scan_response :=
  match start_scan_try subscription group cluster with
  | (stored, Ret response) => (stored, Ok response)
  | (stored, Raise e) =>
      (stored, HTTPException 500 ("Scan failed: " ++ exc_str e))
  end.

(** The [ScanSummary(...)] that [get_scan] builds from a row; an empty or
    absent [pillar_scores] is shown as the empty dictionary. *)
Definition summary_of_scan (scan : scan_row) : summary :=
  {| overall_score :=
       if Nat.ltb 0 (row_passed scan + row_failed scan)
       then round_pct (row_passed scan) (row_passed scan + row_failed scan)
       else 0;
     total_checks := row_total_checks scan;
     passed := row_passed scan;
     failed := row_failed scan;
     not_validated := row_not_validated scan;
     pillar_scores :=
       match row_pillar_scores scan with
       | Some scores => scores
       | None => []
       end |}.

End Scans.

Section ScansFacts.

Variable datetime : Type.
Variable fromisoformat : string -> res datetime.
Variable client_error : option exc.
Variable commit : list (db_object datetime) -> res unit.
Variable validate : scan_response -> res scan_response.
Variable builtin_attr : value -> string -> option value.
Variable get_cluster : string -> string -> string -> res dict.
Variable run_resource_graph_query : string -> list string -> res (list dict).
Variable recommendations_file : catalog_file.
Variable kql_file : string -> option (res string).
Variable new_scan_id : string.
Variable started_iso : string.
Variable completed_iso : string.

Let run := run_assessment builtin_attr get_cluster run_resource_graph_query
             recommendations_file kql_file new_scan_id started_iso completed_iso.
Let store := scan_of_result datetime fromisoformat.
Let scan := start_scan datetime fromisoformat client_error commit validate
              builtin_attr get_cluster run_resource_graph_query
              recommendations_file kql_file new_scan_id started_iso completed_iso.

(** A run is failed exactly when it has no summary. *)
Lemma run_failed_no_summary (subscription group cluster : string) :
  (run_status (run subscription group cluster) = "failed"
   <-> run_summary (run subscription group cluster) = None)
  /\ (run_status (run subscription group cluster) = "completed"
      <-> exists rs, run_summary (run subscription group cluster)
                     = Some (calculate_summary rs)
                     /\ results (run subscription group cluster) = rs).
Proof.
  unfold run, run_assessment.
  destruct (assess _ _ _ _ _ _ _ _) as [[info rs]|e]; simpl; split; split;
    try discriminate; try reflexivity.
  - intros _. exists rs. split; reflexivity.
  - intros [rs [H _]]. discriminate.
Qed.

Lemma scan_of_failed_run (result : assessment_run) :
  run_summary result = None -> exists e, store result = Raise e.
Proof.
  intros H. unfold store, scan_of_result, summary_field. rewrite H.
  destruct (fromisoformat (started_at result)) as [st|e]; cbn [bind];
    [|eexists; reflexivity].
  destruct (PyStr.is_empty (completed_at result)); cbn [bind];
    [eexists; reflexivity|].
  destruct (fromisoformat (completed_at result)); cbn [bind]; eexists; reflexivity.
Qed.

(** X18: when the configuration fetch raises, and more generally whenever
    the run is failed, [start_scan] commits nothing and answers HTTP 500
    with a detail that starts with the scan failure prefix: a failed run is
    neither stored nor returned. *)
Theorem failed_run_not_stored (subscription group cluster : string) :
  (run_status (run subscription group cluster) = "failed" ->
   exists msg,
     scan subscription group cluster
     = ([], HTTPException 500 ("Scan failed: " ++ msg)))
  /\ (forall e, get_cluster subscription group cluster = Raise e ->
        exists msg,
          scan subscription group cluster
          = ([], HTTPException 500 ("Scan failed: " ++ msg))).
Proof.
  assert (H : run_status (run subscription group cluster) = "failed" ->
              exists msg, scan subscription group cluster
                          = ([], HTTPException 500 ("Scan failed: " ++ msg))).
  { intros Hf. apply (proj1 (run_failed_no_summary _ _ _)) in Hf.
    destruct (scan_of_failed_run _ Hf) as [e He].
    unfold scan, start_scan, start_scan_try.
    destruct client_error as [ce|]; [eexists; reflexivity|].
    fold run. unfold store in He. rewrite He. eexists. reflexivity. }
  split; [exact H|].
  intros e He. apply H. unfold run, run_assessment.
  rewrite (assess_fetch_fails builtin_attr get_cluster run_resource_graph_query
             recommendations_file kql_file subscription group cluster e He).
  reflexivity.
Qed.

Lemma scan_of_result_fields (result : assessment_run) (row : scan_row datetime) :
  store result = Ret row ->
  exists s,
    run_summary result = Some s
    /\ row_total_checks datetime row = total_checks s
    /\ row_passed datetime row = passed s
    /\ row_failed datetime row = failed s
    /\ row_not_validated datetime row = not_validated s
    /\ row_pillar_scores datetime row = Some (pillar_scores s)
    /\ row_status datetime row = run_status result.
Proof.
  unfold store, scan_of_result, summary_field.
  destruct (fromisoformat (started_at result)) as [st|e]; cbn [bind]; [|discriminate].
  destruct (if PyStr.is_empty (completed_at result) then Ret None
            else d <- fromisoformat (completed_at result) ;; Ret (Some d)) as [co|e];
    cbn [bind]; [|discriminate].
  destruct (run_summary result) as [s|]; cbn [bind]; [|discriminate].
  intros [= <-]. exists s. repeat split.
Qed.

Lemma run_summary_calculated (subscription group cluster : string) (s : summary) :
  run_summary (run subscription group cluster) = Some s ->
  s = calculate_summary (results (run subscription group cluster))
  /\ run_status (run subscription group cluster) = "completed".
Proof.
  unfold run, run_assessment.
  destruct (assess _ _ _ _ _ _ _ _) as [[info rs]|e]; simpl; [|discriminate].
  intros [= <-]. split; reflexivity.
Qed.

(** X19: what [start_scan] writes in the [Scan] row gives back, through
    the summary [get_scan] builds from the row, the summary of the engine:
    same overall score, counts and pillar scores; and the stored total is
    the number of results. *)
Theorem stored_summary_round_trip (subscription group cluster : string)
    (row : scan_row datetime) :
  store (run subscription group cluster) = Ret row ->
  run_summary (run subscription group cluster) = Some (summary_of_scan datetime row)
  /\ row_total_checks datetime row
     = List.length (results (run subscription group cluster))
  /\ row_status datetime row = "completed".
Proof.
  intros Hs.
  destruct (scan_of_result_fields _ _ Hs) as [s [Hsum [Ht [Hp [Hf [Hn [Hps Hst]]]]]]].
  destruct (run_summary_calculated _ _ _ _ Hsum) as [Hcalc Hcompleted].
  split; [|split].
  - rewrite Hsum. f_equal. unfold summary_of_scan.
    rewrite Ht, Hp, Hf, Hn, Hps, Hcalc. reflexivity.
  - rewrite Ht, Hcalc. reflexivity.
  - rewrite Hst. exact Hcompleted.
Qed.

(** X20: whatever [start_scan] has committed is one [Scan] followed by
    one [ScanResult] per result of the run, each with the id of the scan;
    it answers with a response only after such a commit, for a completed
    run; and when it answers HTTP 500 with objects committed, it is the
    response validation that failed. *)
Theorem start_scan_storage (subscription group cluster : string) :
  let result := run subscription group cluster in
  let outcome := scan subscription group cluster in
  (fst outcome = []
   \/ exists row,
        store result = Ret row
        /\ fst outcome
           = (ScanObject datetime row
              :: map (ScanResultObject datetime (scan_id result)) (results result))%list)
  /\ (forall response, snd outcome = Ok response ->
        fst outcome <> [] /\ run_status result = "completed"
        /\ validate (response_of_result result) = Ret response)
  /\ (forall code detail, snd outcome = HTTPException code detail ->
        fst outcome <> [] ->
        exists e, validate (response_of_result result) = Raise e).
Proof.
  intros result outcome. subst outcome. unfold scan, start_scan, start_scan_try.
  change (run_assessment builtin_attr get_cluster run_resource_graph_query
            recommendations_file kql_file new_scan_id started_iso completed_iso
            subscription group cluster) with result.
  change (scan_of_result datetime fromisoformat result) with (store result).
  destruct client_error as [ce|].
  { split; [left; reflexivity|]. split; [discriminate|].
    intros code detail _ Hn. exfalso. apply Hn. reflexivity. }
  destruct (store result) as [row|e] eqn:Hs.
  2:{ split; [left; reflexivity|]. split; [discriminate|].
      intros code detail _ Hn. exfalso. apply Hn. reflexivity. }
  destruct (commit _) as [u|e].
  2:{ split; [left; reflexivity|]. split; [discriminate|].
      intros code detail _ Hn. exfalso. apply Hn. reflexivity. }
  destruct (scan_of_result_fields _ _ Hs) as [s [Hsum _]].
  destruct (run_summary_calculated _ _ _ _ Hsum) as [_ Hcompleted].
  destruct (validate (response_of_result result)) as [resp|e] eqn:Hv; cbn [fst snd].
  - split; [right; exists row; split; reflexivity|]. split.
    + intros response [= <-]. split; [discriminate|]. split; [exact Hcompleted|].
      reflexivity.
    + discriminate.
  - split; [right; exists row; split; reflexivity|]. split; [discriminate|].
    intros code detail _ _. exists e. reflexivity.
Qed.

End ScansFacts.

(** * The recommendation endpoints ([api/recommendations.py]) *)

(** The arguments of [Recommendation(...)]. *)
Record recommendation_model : Type := {
  rm_id : value;
  rm_category : value;
  rm_recommendation_name : value;
  rm_description : value;
  rm_remediation : value;
  rm_learn_more_link : value;
  rm_check_type : string
}.

(** [rec.get("id", rec.get("recommendation_name", "unknown"))] *)
Definition fallback_id (rec : dict) : value :=
  get_default rec "id" (get_default rec "recommendation_name" (VStr "unknown")).

Definition recommendation_fields (rec : dict) : recommendation_model :=
  {| rm_id := fallback_id rec;
     rm_category := get_default rec "category" (VStr "Unknown");
     rm_recommendation_name := get_default rec "recommendation_name" (VStr "Unknown");
     rm_description := get rec "description";
     rm_remediation := get rec "remediation";
     rm_learn_more_link := get rec "learn_more_link";
     rm_check_type := if has_key "query_file" rec then "kql_query" else "object_key" |}.

Section RecommendationEndpoints.

(** The validation [Recommendation(...)] runs on its arguments. *)
Variable validate : recommendation_model -> res recommendation_model.

(** The list comprehension of [list_recommendations]. *)
Fixpoint to_models (recs : list value) : res (list recommendation_model) :=
  match recs with
  | [] => Ret []
  | VDict rec :: rest =>
      m <- validate (recommendation_fields rec) ;;
      tail <- to_models rest ;;
      Ret (m :: tail)
  | _ :: _ => Raise (AttributeError "object has no attribute 'get'")
  end.

(** [list_recommendations]; [category] is [None] when the query
    parameter is not given. *)
Definition list_recommendations (f : catalog_file) (category : option string)
  : res (list recommendation_model) :=
  recs <- match category with
          | Some c =>
              if PyStr.is_empty c then catalog_entries f
              else get_recommendations_by_category f c
          | None => catalog_entries f
          end ;;
  to_models recs.







End RecommendationEndpoints.

(** * The cluster endpoints ([api/clusters.py]) *)

(** [d[k]] *)
Definition item (d : dict) (k : string) : res value :=
  match lookup k d with
  | Some v => Ret v
  | None => Raise (Exc "KeyError" k)
  end.

(** [v.get(k)] on a value that has to be a mapping. *)
Definition get_of (v : value) (k : string) : res value :=
  match v with
  | VDict d => Ret (get d k)
  | _ => Raise (AttributeError "object has no attribute 'get'")
  end.

(** The arguments of [AgentPoolProfile(...)]. *)
Record pool_model : Type := {
  pm_name : value;
  pm_count : value;
  pm_vm_size : value;
  pm_os_type : value;
  pm_mode : value;
  pm_availability_zones : value;
  pm_enable_auto_scaling : value;
  pm_min_count : value;
  pm_max_count : value;
  pm_os_disk_type : value
}.

(** The arguments of [Cluster(...)], those of [ClusterSku(...)] inlined. *)
Record cluster_model : Type := {
  cm_id : value;
  cm_name : value;
  cm_location : value;
  cm_resource_group : value;
  cm_subscription_id : value;
  cm_kubernetes_version : value;
  cm_provisioning_state : value;
  cm_power_state : value;
  cm_sku_name : value;
  cm_sku_tier : value;
  cm_node_resource_group : value;
  cm_fqdn : value;
  cm_private_fqdn : value;
  cm_agent_pool_profiles : list pool_model
}.

(** One [AgentPoolProfile(...)] of the list comprehension. *)
Definition pool_fields (pool : value) : res pool_model :=
  match pool with
  | VDict p =>
      name <- item p "name" ;;
      count <- item p "count" ;;
      vm_size <- item p "vm_size" ;;
      Ret {| pm_name := name; pm_count := count; pm_vm_size := vm_size;
             pm_os_type := get p "os_type"; pm_mode := get p "mode";
             pm_availability_zones := get p "availability_zones";
             pm_enable_auto_scaling := get p "enable_auto_scaling";
             pm_min_count := get p "min_count"; pm_max_count := get p "max_count";
             pm_os_disk_type := get p "os_disk_type" |}
  | _ => Raise (TypeError "indices must be integers")
  end.

Fixpoint pools_fields (pools : list value) : res (list pool_model) :=
  match pools with
  | [] => Ret []
  | pool :: rest =>
      m <- pool_fields pool ;;
      tail <- pools_fields rest ;;
      Ret (m :: tail)
  end.

(** The arguments [_cluster_to_model] evaluates, in the order written. *)
Definition cluster_fields (cluster : dict) : res cluster_model :=
  id <- item cluster "id" ;;
  name <- item cluster "name" ;;
  location <- item cluster "location" ;;
  group <- item cluster "resource_group" ;;
  subscription <- item cluster "subscription_id" ;;
  version <- item cluster "kubernetes_version" ;;
  state <- item cluster "provisioning_state" ;;
  sku_name <- get_of (get_default cluster "sku" (VDict [])) "name" ;;
  sku_tier <- get_of (get_default cluster "sku" (VDict [])) "tier" ;;
  pools <- py_iter (get_default cluster "agent_pool_profiles" (VList [])) ;;
  profiles <- pools_fields pools ;;
  Ret {| cm_id := id; cm_name := name; cm_location := location;
         cm_resource_group := group; cm_subscription_id := subscription;
         cm_kubernetes_version := version; cm_provisioning_state := state;
         cm_power_state := get cluster "power_state";
         cm_sku_name := sku_name; cm_sku_tier := sku_tier;
         cm_node_resource_group := get cluster "node_resource_group";
         cm_fqdn := get cluster "fqdn";
         cm_private_fqdn := get cluster "private_fqdn";
         cm_agent_pool_profiles := profiles |}.

(** The arguments of [ClusterSummary(...)]. *)
Record cluster_summary : Type := {
  cs_subscription_id : value;
  cs_subscription_name : value;
  cs_cluster_count : nat;
  cs_clusters : list cluster_model
}.

Section ClusterEndpoints.

(** [AzureClientService()] and its methods, and the validation the
    response models run on their arguments. *)
Variable client_error : option exc.
Variable list_subscriptions : res (list dict).
Variable list_clusters : value -> res (list dict).
Variable list_clusters_in_resource_group : string -> string -> res (list dict).
Variable validate : cluster_model -> res cluster_model.
Variable validate_summary : cluster_summary -> res cluster_summary.

(** [_cluster_to_model] *)
Definition cluster_to_model (cluster : dict) : res cluster_model :=
  fields <- cluster_fields cluster ;;
  validate fields.

(** [[_cluster_to_model(c) for c in clusters]] *)
Fixpoint to_cluster_models (clusters : list dict) : res (list cluster_model) :=
  match clusters with
  | [] => Ret []
  | c :: rest =>
      m <- cluster_to_model c ;;
      tail <- to_cluster_models rest ;;
      Ret (m :: tail)
  end.

(** The loop over the subscriptions of [list_clusters]: a subscription
    whose clusters cannot be listed is skipped. *)
Fixpoint gather_clusters (subscriptions : list dict) (all_clusters : list dict)
  : list dict :=
  match subscriptions with
  | [] => all_clusters
  | sub :: rest =>
      match (id <- item sub "id" ;; list_clusters id) with
      | Ret clusters => gather_clusters rest (all_clusters ++ clusters)%list
      | Raise _ => gather_clusters rest all_clusters
      end
  end.

(** The [try] block of the endpoint [list_clusters]. *)
Definition list_clusters_try (subscription group : option string)
  : res (list cluster_model) :=
  match client_error with
  | Some e => Raise e
  | None =>
      all_clusters <-
        match subscription with
        | Some s =>
            if PyStr.is_empty s then
              subs <- list_subscriptions ;; Ret (gather_clusters subs [])
            else
              match group with
              | Some g =>
                  if PyStr.is_empty g then list_clusters (VStr s)
                  else list_clusters_in_resource_group s g
              | None => list_clusters (VStr s)
              end
        | None => subs <- list_subscriptions ;; Ret (gather_clusters subs [])
        end ;;
      to_cluster_models all_clusters
  end.

(** The endpoint [list_clusters]. *)
Definition list_clusters_endpoint (subscription group : option string)
  : http (list cluster_model) :=
  match list_clusters_try subscription group with
  | Ret models => Ok models
  | Raise e => HTTPException 500 ("Failed to list clusters: " ++ exc_str e)
  end.

(** The summary of one subscription in [get_clusters_summary]: of its
    clusters, or with no cluster when anything in the inner [try] raises. *)
Definition summarize_subscription (sub : dict) : res cluster_summary :=
  match (id <- item sub "id" ;;
         clusters <- list_clusters id ;;
         id' <- item sub "id" ;;
         name <- item sub "name" ;;
         models <- to_cluster_models clusters ;;
         validate_summary
           {| cs_subscription_id := id'; cs_subscription_name := name;
              cs_cluster_count := List.length clusters; cs_clusters := models |}) with
  | Ret summary => Ret summary
  | Raise _ =>
      id <- item sub "id" ;;
      name <- item sub "name" ;;
      validate_summary
        {| cs_subscription_id := id; cs_subscription_name := name;
           cs_cluster_count := 0; cs_clusters := [] |}
  end.

Fixpoint summarize_all (subscriptions : list dict) : res (list cluster_summary) :=
  match subscriptions with
  | [] => Ret []
  | sub :: rest =>
      summary <- summarize_subscription sub ;;
      tail <- summarize_all rest ;;
      Ret (summary :: tail)
  end.

(** The endpoint [get_clusters_summary]. *)
Definition get_clusters_summary : http (list cluster_summary) :=
  match (match client_error with
         | Some e => Raise e
         | None => subs <- list_subscriptions ;; summarize_all subs
         end) with
  | Ret summaries => Ok summaries
  | Raise e => HTTPException 500 ("Failed to get cluster summary: " ++ exc_str e)
  end.

End ClusterEndpoints.

Section ClusterEndpointFacts.

Variable client_error : option exc.
Variable list_subscriptions : res (list dict).
Variable list_clusters : value -> res (list dict).
Variable list_clusters_in_resource_group : string -> string -> res (list dict).
Variable validate : cluster_model -> res cluster_model.
Variable validate_summary : cluster_summary -> res cluster_summary.

Let models := to_cluster_models validate.
Let summarize := summarize_subscription list_clusters validate validate_summary.
Let endpoint := list_clusters_endpoint client_error list_subscriptions list_clusters
                  list_clusters_in_resource_group validate.

(** The clusters of a subscription, none when they cannot be listed. *)
Definition clusters_or_none (sub : dict) : list dict :=
  match (id <- item sub "id" ;; list_clusters id) with
  | Ret clusters => clusters
  | Raise _ => []
  end.

Lemma gather_clusters_concat (subs : list dict) (acc : list dict) :
  gather_clusters list_clusters subs acc
  = (acc ++ List.concat (map clusters_or_none subs))%list.
Proof.
  revert acc. induction subs as [|sub subs IH]; intros acc; simpl.
  - rewrite app_nil_r. reflexivity.
  - unfold clusters_or_none at 1.
    destruct (id <- item sub "id" ;; list_clusters id) as [clusters|e].
    + rewrite IH, app_assoc. reflexivity.
    + rewrite IH. reflexivity.
Qed.

Lemma to_cluster_models_length (clusters : list dict) (l : list cluster_model) :
  models clusters = Ret l -> List.length l = List.length clusters.
Proof.
  unfold models. revert l. induction clusters as [|c clusters IH]; simpl; intros l.
  - intros [= <-]. reflexivity.
  - destruct (cluster_to_model validate c) as [m|e]; cbn [bind]; [|discriminate].
    destruct (to_cluster_models validate clusters) as [tail|e]; cbn [bind];
      [|discriminate].
    intros [= <-]. simpl. f_equal. apply IH. reflexivity.
Qed.

(** X22: with no subscription given, [list_clusters] converts the
    clusters of the subscriptions that can be listed, in order, and skips
    the others; the resource group filter then has no effect; and a cluster
    that fails conversion makes the whole request answer HTTP 500. *)
Theorem list_clusters_all_subscriptions (subs : list dict) (group : option string) :
  client_error = None ->
  list_subscriptions = Ret subs ->
  let all_clusters := List.concat (map clusters_or_none subs) in
  endpoint None group = endpoint None None
  /\ (forall l, models all_clusters = Ret l -> endpoint None group = Ok l)
  /\ (forall e, models all_clusters = Raise e ->
        endpoint None group
        = HTTPException 500 ("Failed to list clusters: " ++ exc_str e)).
Proof.
  intros Hc Hs all_clusters.
  assert (H : forall g,
                list_clusters_try client_error list_subscriptions list_clusters
                  list_clusters_in_resource_group validate None g
                = models all_clusters).
  { intros g. unfold list_clusters_try. rewrite Hc, Hs. cbn [bind].
    rewrite gather_clusters_concat. reflexivity. }
  unfold endpoint, list_clusters_endpoint. rewrite !H. split; [reflexivity|]. split.
  - intros l ->. reflexivity.
  - intros e ->. reflexivity.
Qed.

(** X23: in [get_clusters_summary] a subscription whose clusters cannot
    be listed, or one of whose clusters fails conversion, is reported with
    count 0 and no cluster instead of failing the request; every summary
    built has a count equal to the number of its clusters; and the answer
    has one summary per subscription. *)
Theorem summary_per_subscription (sub : dict) (id name : value) :
  item sub "id" = Ret id -> item sub "name" = Ret name ->
  let empty := {| cs_subscription_id := id; cs_subscription_name := name;
                  cs_cluster_count := 0; cs_clusters := [] |} in
  (forall e, list_clusters id = Raise e -> summarize sub = validate_summary empty)
  /\ (forall clusters e,
        list_clusters id = Ret clusters -> models clusters = Raise e ->
        summarize sub = validate_summary empty)
  /\ (forall s, summarize sub = Ret s ->
        exists built,
          validate_summary built = Ret s
          /\ cs_subscription_id built = id
          /\ cs_cluster_count built = List.length (cs_clusters built))
  /\ (forall subs l,
        get_clusters_summary client_error list_subscriptions list_clusters
          validate validate_summary = Ok l ->
        list_subscriptions = Ret subs ->
        List.length l = List.length subs).
Proof.
  intros Hid Hname empty. unfold summarize, summarize_subscription.
  rewrite Hid, Hname. cbn [bind]. split; [|split; [|split]].
  - intros e ->. reflexivity.
  - intros clusters e -> Hm. unfold models in Hm. cbn [bind]. rewrite Hm.
    reflexivity.
  - intros s. destruct (list_clusters id) as [clusters|e]; cbn [bind].
    + destruct (to_cluster_models validate clusters) as [ms|e] eqn:Hm; cbn [bind].
      * destruct (validate_summary _) as [s'|e] eqn:Hv.
        -- intros [= <-]. eexists. split; [exact Hv|]. split; [reflexivity|].
           simpl. symmetry. apply to_cluster_models_length. exact Hm.
        -- intros Hv'. exists empty. split; [exact Hv'|]. split; reflexivity.
      * intros Hv'. exists empty. split; [exact Hv'|]. split; reflexivity.
    + intros Hv'. exists empty. split; [exact Hv'|]. split; reflexivity.
  - intros subs l Hg Hs. unfold get_clusters_summary in Hg.
    destruct client_error as [ce|]; [discriminate|]. rewrite Hs in Hg. cbn [bind] in Hg.
    destruct (summarize_all list_clusters validate validate_summary subs)
      as [ss|e] eqn:Ha; [|discriminate].
    injection Hg as <-. clear - Ha. revert ss Ha.
    induction subs as [|x subs IH]; simpl; intros ss.
    + intros [= <-]. reflexivity.
    + destruct (summarize_subscription _ _ _ x) as [s|e]; cbn [bind]; [|discriminate].
      destruct (summarize_all _ _ _ subs) as [tail|e]; cbn [bind]; [|discriminate].
      intros [= <-]. simpl. f_equal. apply IH. reflexivity.
Qed.

End ClusterEndpointFacts.

(** * Concrete instances of the further properties *)

Lemma object_key_cases_witness :
  evaluate_object_key no_attr [("object.value", VStr "x")] (VDict [])
  = Ret ("CouldNotValidate", VNone)
  /\ (exists e,
        evaluate_object_key no_attr [("object_key", VInt 7)] (VDict []) = Raise e)
  /\ status (evaluate_recommendation no_attr query_none kql_absent
               [("object_key", VInt 7)] (VDict []) sample_cluster "s1")
     = "CouldNotValidate".
Proof.
  pose proof (object_key_cases no_attr query_none kql_absent
                [("object.value", VStr "x")] (VDict [])) as H1.
  pose proof (object_key_cases no_attr query_none kql_absent
                [("object_key", VInt 7)] (VDict [])) as H2.
  destruct H1 as [H1 _]. destruct H2 as [_ [_ H2]].
  specialize (H1 (or_introl eq_refl)).
  assert (Hn : forall path, get [("object_key", VInt 7)] "object_key" <> VStr path)
    by (intros path; discriminate).
  destruct (H2 eq_refl Hn) as [Hr Hs].
  split; [exact H1|]. split; [exact Hr|].
  exact (proj1 (Hs eq_refl eq_refl sample_cluster "s1")).
Defined.

Definition both_modes_rule : dict :=
  [("recommendation_name", VStr "Both"); ("query_file", VStr "zones.kql");
   ("object_key", VStr "sku.tier"); ("object.value", VStr "free")].

Lemma mode_selection_witness :
  evaluate_recommendation no_attr query_none kql_present both_modes_rule
    (get sample_cluster "_raw") sample_cluster "s1"
  = evaluate_recommendation no_attr query_none kql_present both_modes_rule
      (VDict []) sample_cluster "s1".
Proof.
  exact (proj1 (mode_selection no_attr query_none kql_present both_modes_rule
                  sample_cluster "s1") eq_refl (get sample_cluster "_raw") (VDict [])).
Defined.

Lemma empty_segments_skipped_witness :
  evaluate_object_key no_attr
    [("object_key", VStr ".sku..tier."); ("object.value", VStr "standard")]
    (get sample_cluster "_raw")
  = evaluate_object_key no_attr
      [("object_key", VStr "sku.tier"); ("object.value", VStr "standard")]
      (get sample_cluster "_raw").
Proof.
  refine (empty_segments_skipped no_attr _ _ ".sku..tier." "sku.tier" _ _ _ _ _).
  - split; [reflexivity|]. split; discriminate.
  - split; [reflexivity|]. split; discriminate.
  - reflexivity.
  - reflexivity.
Defined.

Definition bad_index_rule : dict :=
  [("object_key", VStr "agent_pool_profiles[first].name"); ("object.value", VStr "system")].

Lemma bad_index_undetermined_witness :
  evaluate_object_key no_attr bad_index_rule (get sample_cluster "_raw")
  = Ret ("CouldNotValidate", VNone).
Proof.
  refine (bad_index_undetermined no_attr bad_index_rule
            "agent_pool_profiles[first].name" (get sample_cluster "_raw")
            ["agent_pool_profiles"] ["name"] "[first]" _ _ _ _ _ _).
  - split; [reflexivity|]. split; discriminate.
  - reflexivity.
  - reflexivity.
  - reflexivity.
  - reflexivity.
Defined.


Lemma padded_alternatives :
  Forall2 padded (PyStr.split "|" "standard|premium")
                 (PyStr.split "|" " standard | premium").
Proof.
  constructor.
  - exists " ", " ". repeat split.
  - constructor; [|constructor]. exists " ", EmptyString. repeat split.
Qed.

Lemma alternatives_ignore_padding_witness :
  evaluate_object_key no_attr (tier_rule " standard | premium")
    (VDict [("sku", VDict [("tier", VStr "Premium")])])
  = evaluate_object_key no_attr (tier_rule "standard|premium")
      (VDict [("sku", VDict [("tier", VStr "Premium")])]).
Proof.
  refine (alternatives_ignore_padding no_attr (tier_rule "standard|premium")
            (tier_rule " standard | premium") "sku.tier"
            (VDict [("sku", VDict [("tier", VStr "Premium")])]) (VStr "Premium")
            "standard|premium" " standard | premium"
            (tier_rule_direct _) (tier_rule_direct _) eq_refl eq_refl eq_refl
            padded_alternatives eq_refl).
Defined.

Definition sku_keys_rule : dict :=
  [("object_key", VStr "sku"); ("object.value", VList [VStr "tier"; VStr "capacity"])].

Lemma list_expected_on_mapping_witness :
  evaluate_object_key no_attr sku_keys_rule (get sample_cluster "_raw")
  = Ret ("Failed", VDict [("name", VStr "Base"); ("tier", VStr "Standard")]).
Proof.
  refine (list_expected_on_mapping no_attr sku_keys_rule "sku"
            (get sample_cluster "_raw")
            [("name", VStr "Base"); ("tier", VStr "Standard")]
            [VStr "tier"; VStr "capacity"] _ eq_refl _ eq_refl).
  - split; [reflexivity|]. split; discriminate.
  - constructor; [eexists; reflexivity|]. constructor; [eexists; reflexivity|].
    constructor.
Defined.

Lemma summary_order_independent_witness :
  calculate_summary [mk_result "Security" "Passed"; mk_result "Reliability" "Failed"]
  = calculate_summary [mk_result "Reliability" "Failed"; mk_result "Security" "Passed"].
Proof.
  apply summary_order_independent. apply perm_swap.
Defined.

Lemma pillar_totals_cover_witness :
  pillar_totals (calculate_summary
                   [mk_result "Security" "Passed"; mk_result "security" "Failed"])
  = 1%nat.
Proof.
  rewrite (proj1 (pillar_totals_cover
                    [mk_result "Security" "Passed"; mk_result "security" "Failed"])).
  reflexivity.
Defined.

Lemma missing_catalog_run_witness :
  run_status (run_assessment no_attr fetch_ok query_none Missing kql_absent
                "scan-1" "t0" "t1" "s1" "rg1" "aks1") = "completed"
  /\ results (run_assessment no_attr fetch_ok query_none Missing kql_absent
                "scan-1" "t0" "t1" "s1" "rg1" "aks1") = [].
Proof.
  pose proof (missing_catalog_run no_attr fetch_ok query_none kql_absent
                "scan-1" "t0" "t1" "s1" "rg1" "aks1" sample_cluster eq_refl) as H.
  destruct H as [H1 [H2 _]]. split; [exact H1 | exact H2].
Defined.

Lemma run_on_selected_catalog_witness :
  results (run_assessment no_attr fetch_ok query_two
             (Parsed (VList (map VDict (select duplicate_catalog [])))) kql_present
             "scan-1" "t0" "t1" "s1" "rg1" "aks1")
  = results (run_assessment no_attr fetch_ok query_two
               (Parsed (VList (map VDict duplicate_catalog))) kql_present
               "scan-1" "t0" "t1" "s1" "rg1" "aks1").
Proof.
  exact (run_on_selected_catalog no_attr fetch_ok query_two kql_present
           "scan-1" "t0" "t1" "s1" "rg1" "aks1" sample_cluster duplicate_catalog
           eq_refl duplicate_catalog_hashable).
Defined.

Lemma results_bounded_by_catalog_witness :
  (List.length (results (run_assessment no_attr fetch_ok query_two
                           (Parsed (VList (map VDict duplicate_catalog))) kql_present
                           "scan-1" "t0" "t1" "s1" "rg1" "aks1"))
   <= List.length duplicate_catalog)%nat.
Proof.
  exact (proj1 (results_bounded_by_catalog no_attr fetch_ok query_two kql_present
                  "scan-1" "t0" "t1" "s1" "rg1" "aks1" sample_cluster
                  duplicate_catalog eq_refl duplicate_catalog_hashable)).
Defined.


Lemma by_id_spec_witness :
  get_recommendation_by_id
    (Parsed (VList [VDict [("recommendation_name", VStr "Enable RBAC")];
                    VDict [("id", VStr "tier")]])) "Enable RBAC"
  = Ret None.
Proof.
  apply (proj1 (proj2 (by_id_spec
                         [VDict [("recommendation_name", VStr "Enable RBAC")];
                          VDict [("id", VStr "tier")]] "Enable RBAC"))).
  constructor; [eexists; split; [reflexivity | discriminate]|].
  constructor; [eexists; split; [reflexivity | discriminate]|].
  constructor.
Defined.

Definition lowercase_rule : dict :=
  [("recommendation_name", VStr "Enable RBAC"); ("category", VStr "security");
   ("object_key", VStr "enable_rbac"); ("object.value", VStr "true")].

Lemma category_case_mismatch_witness :
  in_some_pillar
    (evaluate_recommendation no_attr query_none kql_absent lowercase_rule
       (get sample_cluster "_raw") sample_cluster "s1") = false.
Proof.
  pose proof (category_case_mismatch no_attr query_none kql_absent lowercase_rule
                "security"
                {| pillar_id := "security"; pillar_name := "Security";
                   pillar_description := "Protect your workloads, data, and access";
                   pillar_color := "#ef4444" |}
                (or_intror (or_introl eq_refl)) eq_refl eq_refl
                ltac:(discriminate)) as H.
  exact (proj2 H (get sample_cluster "_raw") sample_cluster "s1").
Defined.

(** A world for the scan endpoints: timestamps are kept as strings, the
    commit succeeds and validation accepts every response. *)
Definition parse_any (s : string) : res string := Ret s.
Definition commit_ok (added : list (db_object string)) : res unit := Ret tt.
Definition accept_response (r : scan_response) : res scan_response := Ret r.

Lemma failed_run_not_stored_witness :
  exists msg,
    start_scan string parse_any None commit_ok accept_response no_attr fetch_denied
      query_none (Parsed undetermined_catalog) kql_absent "scan-1" "t0" "t1"
      "s1" "rg1" "aks1"
    = ([], HTTPException 500 ("Scan failed: " ++ msg)).
Proof.
  exact (proj2 (failed_run_not_stored string parse_any None commit_ok
                  accept_response no_attr fetch_denied query_none
                  (Parsed undetermined_catalog) kql_absent "scan-1" "t0" "t1"
                  "s1" "rg1" "aks1")
           (Exc "HttpResponseError" "AuthorizationFailed") eq_refl).
Defined.

Lemma stored_summary_round_trip_witness :
  exists row,
    scan_of_result string parse_any
      (run_assessment no_attr fetch_ok query_two
         (Parsed (VList (map VDict duplicate_catalog))) kql_present
         "scan-1" "t0" "t1" "s1" "rg1" "aks1") = Ret row
    /\ run_summary
         (run_assessment no_attr fetch_ok query_two
            (Parsed (VList (map VDict duplicate_catalog))) kql_present
            "scan-1" "t0" "t1" "s1" "rg1" "aks1")
       = Some (summary_of_scan string row)
    /\ row_total_checks string row = 2%nat.
Proof.
  eexists. split; [vm_compute; reflexivity|].
  pose proof (stored_summary_round_trip string parse_any no_attr fetch_ok query_two
                (Parsed (VList (map VDict duplicate_catalog))) kql_present
                "scan-1" "t0" "t1" "s1" "rg1" "aks1") as H.
  destruct (H _ eq_refl) as [H1 [H2 _]]. split; [exact H1|].
  exact (eq_trans H2 eq_refl).
Defined.

Lemma start_scan_storage_witness :
  run_status (run_assessment no_attr fetch_ok query_two
                (Parsed (VList (map VDict duplicate_catalog))) kql_present
                "scan-1" "t0" "t1" "s1" "rg1" "aks1") = "completed"
  /\ List.length
       (fst (start_scan string parse_any None commit_ok accept_response no_attr
               fetch_ok query_two (Parsed (VList (map VDict duplicate_catalog)))
               kql_present "scan-1" "t0" "t1" "s1" "rg1" "aks1")) = 3%nat.
Proof.
  pose proof (start_scan_storage string parse_any None commit_ok accept_response
                no_attr fetch_ok query_two
                (Parsed (VList (map VDict duplicate_catalog))) kql_present
                "scan-1" "t0" "t1" "s1" "rg1" "aks1") as H.
  destruct H as [_ [H _]].
  destruct (H _ eq_refl) as [_ [Hc _]]. split; [exact Hc | reflexivity].
Defined.




(** A world for the cluster endpoints: two subscriptions, the clusters of
    the second cannot be listed. *)
Definition two_subscriptions : list dict :=
  [[("id", VStr "s1"); ("name", VStr "Production")];
   [("id", VStr "s2"); ("name", VStr "Sandbox")]].

Definition listed_cluster : dict :=
  [("id", VStr "/subscriptions/s1/resourceGroups/rg1/providers/Microsoft.ContainerService/managedClusters/aks1");
   ("name", VStr "aks1"); ("location", VStr "westeurope");
   ("resource_group", VStr "rg1"); ("subscription_id", VStr "s1");
   ("kubernetes_version", VStr "1.29"); ("provisioning_state", VStr "Succeeded");
   ("sku", VDict [("name", VStr "Base"); ("tier", VStr "Standard")]);
   ("agent_pool_profiles",
    VList [VDict [("name", VStr "system"); ("count", VInt 3);
                  ("vm_size", VStr "Standard_D4s_v5")]])].

Definition clusters_of (subscription : value) : res (list dict) :=
  if py_eq subscription (VStr "s1") then Ret [listed_cluster]
  else Raise (Exc "HttpResponseError" "AuthorizationFailed").

Definition clusters_in_group (subscription group : string) : res (list dict) :=
  Ret [].

Definition accept_cluster (m : cluster_model) : res cluster_model := Ret m.
Definition accept_summary (s : cluster_summary) : res cluster_summary := Ret s.

Lemma list_clusters_all_subscriptions_witness :
  exists models,
    list_clusters_endpoint None (Ret two_subscriptions) clusters_of clusters_in_group
      accept_cluster None (Some "rg1") = Ok models
    /\ List.length models = 1%nat.
Proof.
  pose proof (list_clusters_all_subscriptions None (Ret two_subscriptions) clusters_of
                clusters_in_group accept_cluster two_subscriptions (Some "rg1")
                eq_refl eq_refl) as H.
  destruct H as [_ [H _]]. eexists. split; [apply H; reflexivity | reflexivity].
Defined.

Lemma summary_per_subscription_witness :
  summarize_subscription clusters_of accept_cluster accept_summary
    [("id", VStr "s2"); ("name", VStr "Sandbox")]
  = Ret {| cs_subscription_id := VStr "s2"; cs_subscription_name := VStr "Sandbox";
           cs_cluster_count := 0; cs_clusters := [] |}.
Proof.
  pose proof (summary_per_subscription None (Ret two_subscriptions) clusters_of
                clusters_in_group accept_cluster accept_summary
                [("id", VStr "s2"); ("name", VStr "Sandbox")]
                (VStr "s2") (VStr "Sandbox") eq_refl eq_refl) as H.
  destruct H as [H _].
  exact (H (Exc "HttpResponseError" "AuthorizationFailed") eq_refl).
Defined.
